(** * LazyRG: the search/preview runner and the event dispatcher of [main.go]

    A shallow embedding of [executeRipgrep], [loadFile], [initialModel] and
    [model.Update], together with the pieces of the Go standard library they
    call ([strings], [unicode/utf8], [unicode], [fmt]'s [%d] scanner).

    Go strings are byte sequences: they are modelled as [string] (a list of
    [ascii], one per byte); runes and Go [int]s are [Z]. *)

From Stdlib Require Import ZArith List String Ascii Bool Lia DecimalString.
Import ListNotations.
Local Open Scope string_scope.
Local Open Scope Z_scope.

(** ** Bytes, runes and machine integers *)

Definition rune := Z.

Definition byte_val (c : ascii) : Z := Z.of_N (N_of_ascii c).

(** Go's [int] on a 64-bit platform: two's complement wrap-around. *)
Definition wrap64 (z : Z) : Z := (z + 2^63) mod 2^64 - 2^63.
Definition int_add (a b : Z) : Z := wrap64 (a + b).
Definition int_sub (a b : Z) : Z := wrap64 (a - b).

(** [s[n:]] for [n <= len(s)]. *)
Fixpoint drop (n : nat) (s : string) : string :=
  match n, s with
  | O, _ => s
  | S k, EmptyString => EmptyString
  | S k, String _ t => drop k t
  end.

(** [s[i]] as a byte value (0 outside the string, where Go would panic; the
    callers below stay inside). *)
Definition byteAt (s : string) (i : Z) : Z :=
  if i <? 0 then 0
  else match String.get (Z.to_nat i) s with
       | Some c => byte_val c
       | None => 0
       end.

(** Every byte of [s] satisfies [p]. *)
Fixpoint all_bytes (p : ascii -> bool) (s : string) : bool :=
  match s with
  | EmptyString => true
  | String c t => p c && all_bytes p t
  end.

(** ** unicode/utf8 *)
Module utf8.

Definition RuneError : rune := 0xFFFD.
Definition RuneSelf : Z := 0x80.
Definition UTFMax : Z := 4.

Definition maskx : Z := 0x3F.
Definition mask2 : Z := 0x1F.
Definition mask3 : Z := 0x0F.
Definition mask4 : Z := 0x07.

Definition locb : Z := 0x80.
Definition hicb : Z := 0xBF.

(* Entries of the [first] table: the low three bits are the length of the
   sequence, the high four bits index [acceptRanges]. *)
Definition xx : Z := 0xF1.  (* invalid: size 1 *)
Definition as_ : Z := 0xF0. (* ASCII: size 1 *)
Definition s1 : Z := 0x02.
Definition s2 : Z := 0x13.
Definition s3 : Z := 0x03.
Definition s4 : Z := 0x23.
Definition s5 : Z := 0x34.
Definition s6 : Z := 0x04.
Definition s7 : Z := 0x44.

Definition first (b : Z) : Z :=
  if b <? 0x80 then as_
  else if b <? 0xC2 then xx
  else if b <? 0xE0 then s1
  else if b =? 0xE0 then s2
  else if b <? 0xED then s3
  else if b =? 0xED then s4
  else if b <? 0xF0 then s3
  else if b =? 0xF0 then s5
  else if b <? 0xF4 then s6
  else if b =? 0xF4 then s7
  else xx.

Definition acceptRanges (i : Z) : Z * Z :=
  if i =? 0 then (locb, hicb)
  else if i =? 1 then (0xA0, hicb)
  else if i =? 2 then (locb, 0x9F)
  else if i =? 3 then (0x90, hicb)
  else if i =? 4 then (locb, 0x8F)
  else (0, 0).

(** [utf8.DecodeRuneInString]: the first rune of [s] and its width in
    bytes; [(RuneError, 1)] on an invalid or truncated encoding. *)
Definition DecodeRuneInString (s : string) : rune * nat :=
  match s with
  | EmptyString => (RuneError, 0%nat)
  | String c0 t0 =>
    let b0 := byte_val c0 in
    let x := first b0 in
    if as_ <=? x then
      (* the mask trick of the source: RuneError for xx, the byte for as *)
      ((if x =? xx then RuneError else b0), 1%nat)
    else
      let sz := Z.land x 7 in
      let '(lo, hi) := acceptRanges (Z.shiftr x 4) in
      if Z.of_nat (String.length s) <? sz then (RuneError, 1%nat)
      else
        match t0 with
        | EmptyString => (RuneError, 1%nat)
        | String c1 t1 =>
          let b1 := byte_val c1 in
          if (b1 <? lo) || (hi <? b1) then (RuneError, 1%nat)
          else if sz <=? 2 then
            (Z.lor (Z.shiftl (Z.land b0 mask2) 6) (Z.land b1 maskx), 2%nat)
          else
            match t1 with
            | EmptyString => (RuneError, 1%nat)
            | String c2 t2 =>
              let b2 := byte_val c2 in
              if (b2 <? locb) || (hicb <? b2) then (RuneError, 1%nat)
              else if sz <=? 3 then
                (Z.lor (Z.lor (Z.shiftl (Z.land b0 mask3) 12)
                              (Z.shiftl (Z.land b1 maskx) 6))
                       (Z.land b2 maskx), 3%nat)
              else
                match t2 with
                | EmptyString => (RuneError, 1%nat)
                | String c3 _ =>
                  let b3 := byte_val c3 in
                  if (b3 <? locb) || (hicb <? b3) then (RuneError, 1%nat)
                  else
                    (Z.lor (Z.lor (Z.lor (Z.shiftl (Z.land b0 mask4) 18)
                                         (Z.shiftl (Z.land b1 maskx) 12))
                                  (Z.shiftl (Z.land b2 maskx) 6))
                           (Z.land b3 maskx), 4%nat)
                end
            end
        end
  end.

(** [utf8.RuneStart]: the byte is not a continuation byte. *)
Definition RuneStart (b : Z) : bool := negb (Z.land b 0xC0 =? 0x80).

(** The backward scan of [DecodeLastRuneInString]:
    [for ; start >= lim; start-- { if RuneStart(s[start]) { break } }]. *)
Fixpoint scanBack (fuel : nat) (s : string) (start lim : Z) : Z :=
  match fuel with
  | O => start
  | S k =>
    if start <? lim then start
    else if RuneStart (byteAt s start) then start
    else scanBack k s (start - 1) lim
  end.

(** [utf8.DecodeLastRuneInString]: the last rune of [s] and its width. *)
Definition DecodeLastRuneInString (s : string) : rune * nat :=
  let end_ := Z.of_nat (String.length s) in
  if end_ =? 0 then (RuneError, 0%nat)
  else
    let start := end_ - 1 in
    let r := byteAt s start in
    if r <? RuneSelf then (r, 1%nat)
    else
      let lim := Z.max (end_ - UTFMax) 0 in
      let start := scanBack 4 s (start - 1) lim in
      let start := if start <? 0 then 0 else start in
      let '(r, size) :=
        DecodeRuneInString
          (substring (Z.to_nat start) (Z.to_nat (end_ - start)) s) in
      if negb (start + Z.of_nat size =? end_) then (RuneError, 1%nat)
      else (r, size).

End utf8.

(** ** unicode *)
Module unicode.

Definition MaxLatin1 : Z := 0xFF.

(** [unicode.IsSpace]: the Latin-1 cases, then the [White_Space] table. *)
Definition IsSpace (r : rune) : bool :=
  if (0 <=? r) && (r <=? MaxLatin1) then
    (r =? 0x09) || (r =? 0x0A) || (r =? 0x0B) || (r =? 0x0C) || (r =? 0x0D)
    || (r =? 0x20) || (r =? 0x85) || (r =? 0xA0)
  else
    (r =? 0x1680) || ((0x2000 <=? r) && (r <=? 0x200A))
    || ((0x2028 <=? r) && (r <=? 0x2029)) || (r =? 0x202F)
    || (r =? 0x205F) || (r =? 0x3000).

End unicode.

(** ** strings *)
Module strings.

(** [strings.Contains(s, substr)]. *)
Fixpoint Contains (s substr : string) : bool :=
  match s with
  | EmptyString => String.prefix substr EmptyString
  | String _ t => String.prefix substr s || Contains t substr
  end.

(** The loop of [strings.TrimLeftFunc]: drop leading runes satisfying [f].
    [fuel] bounds the number of runes by the number of bytes. *)
Fixpoint trimLeftLoop (f : rune -> bool) (fuel : nat) (s : string) : string :=
  match fuel with
  | O => s
  | S k =>
    match s with
    | EmptyString => s
    | _ =>
      let '(r, size) := utf8.DecodeRuneInString s in
      if f r then trimLeftLoop f k (drop size s) else s
    end
  end.

Definition TrimLeftFunc (s : string) (f : rune -> bool) : string :=
  trimLeftLoop f (String.length s) s.

(** The loop of [strings.TrimRightFunc]: drop trailing runes satisfying
    [f], decoding backwards. *)
Fixpoint trimRightLoop (f : rune -> bool) (fuel : nat) (s : string) : string :=
  match fuel with
  | O => s
  | S k =>
    match s with
    | EmptyString => s
    | _ =>
      let '(r, size) := utf8.DecodeLastRuneInString s in
      if f r then trimRightLoop f k (substring 0 (String.length s - size) s)
      else s
    end
  end.

Definition TrimRightFunc (s : string) (f : rune -> bool) : string :=
  trimRightLoop f (String.length s) s.

(** [strings.TrimSpace]: leading and trailing Unicode white space removed.
    (The source has a byte-wise fast path for ASCII that computes the same
    string as this general path.) *)
Definition TrimSpace (s : string) : string :=
  TrimRightFunc (TrimLeftFunc s unicode.IsSpace) unicode.IsSpace.

(** [strings.Index] for a one-byte separator, as a cut of [s] around its
    first occurrence. *)
Fixpoint cut (sep : ascii) (s : string) : option (string * string) :=
  match s with
  | EmptyString => None
  | String c t =>
    if Ascii.eqb c sep then Some (EmptyString, t)
    else match cut sep t with
         | Some (a, b) => Some (String c a, b)
         | None => None
         end
  end.

(** The loop of [genSplit]: at most [n] more cuts. *)
Fixpoint splitLoop (n : nat) (sep : ascii) (s : string) : list string :=
  match n with
  | O => [s]
  | S k =>
    match cut sep s with
    | None => [s]
    | Some (a, rest) => a :: splitLoop k sep rest
    end
  end.

(** [strings.SplitN(s, sep, n)] for a one-byte [sep] (the program only
    splits on ["\n"] and [":"]): at most [n] substrings, the last one the
    unsplit remainder; [n = 0] gives none, [n < 0] all of them. *)
Definition SplitN (s : string) (sep : ascii) (n : Z) : list string :=
  if n =? 0 then []
  else if n <? 0 then splitLoop (String.length s) sep s
  else splitLoop (Z.to_nat (n - 1)) sep s.

(** [strings.Split(s, sep)] is [SplitN(s, sep, -1)]. *)
Definition Split (s : string) (sep : ascii) : list string :=
  SplitN s sep (-1).

End strings.

Definition newline : ascii := Ascii.ascii_of_nat 10.
Definition colon : ascii := ":"%char.

(** The one-byte string ["\n"]. *)
Definition nl : string := String newline EmptyString.

(** A Go [error] is observed only through [Error()]: it is modelled by its
    message, and [nil] by [None]. *)
Definition error := string.

(** ** strconv *)
Module strconv.

Definition isDigit (c : ascii) : bool :=
  (48 <=? byte_val c) && (byte_val c <=? 57).

(** The value of a run of decimal digits; [None] on any other byte. *)
Fixpoint digitsValue (acc : Z) (s : string) : option Z :=
  match s with
  | EmptyString => Some acc
  | String c t =>
    if isDigit c then digitsValue (acc * 10 + (byte_val c - 48)) t else None
  end.

(** [strconv.ParseInt(s, 10, 64)]: an optional sign, then decimal digits
    only (no underscores in base 10), within the range of [int64]. *)
Definition ParseInt (s : string) : option Z :=
  match s with
  | EmptyString => None
  | String c t =>
    let neg := Ascii.eqb c "-" in
    let s' := if Ascii.eqb c "+" || Ascii.eqb c "-" then t else s in
    match s' with
    | EmptyString => None
    | _ =>
      match digitsValue 0 s' with
      | None => None
      | Some un =>
        if neg then (if 2^63 <? un then None else Some (- un))
        else (if 2^63 <=? un then None else Some un)
      end
    end
  end.

End strconv.

(** ** fmt: the [%d] verb, printed and scanned *)
Module fmt.

(** [%d] of an integer. *)
Definition Sprint_d (z : Z) : string := NilZero.string_of_int (Z.to_int z).

Fixpoint spaces (n : nat) : string :=
  match n with
  | O => EmptyString
  | S k => String " " (spaces k)
  end.

(** [%4d]: right-aligned in a field of width 4. *)
Definition Sprint_4d (z : Z) : string :=
  let s := Sprint_d z in spaces (4 - String.length s) ++ s.

(** The scan state [ss]: the unread input, the number of runes consumed
    and the token buffer. *)
Record ss := { rest : string; count : Z; buf : string }.

Definition eof : rune := -1.
Definition hugeWid : Z := 2^30.

(** The [space] table of scan.go. *)
Definition isSpace (r : rune) : bool :=
  if 2^16 <=? r then false
  else
    ((0x0009 <=? r) && (r <=? 0x000d)) || (r =? 0x0020) || (r =? 0x0085)
    || (r =? 0x00a0) || (r =? 0x1680) || ((0x2000 <=? r) && (r <=? 0x200a))
    || ((0x2028 <=? r) && (r <=? 0x2029)) || (r =? 0x202f) || (r =? 0x205f)
    || (r =? 0x3000).

(** [getRune]: the next rune, or [eof] at the end of the input or at the
    width limit. *)
Definition getRune (s : ss) : rune * ss :=
  match rest s with
  | EmptyString => (eof, s)
  | _ =>
    if hugeWid <=? count s then (eof, s)
    else
      let '(r, size) := utf8.DecodeRuneInString (rest s) in
      (r, {| rest := drop size (rest s); count := count s + 1; buf := buf s |})
  end.

(** [indexRune(ok, r) >= 0], for the ASCII sets the scanner uses. *)
Fixpoint indexRune (ok : string) (r : rune) : bool :=
  match ok with
  | EmptyString => false
  | String c t => (byte_val c =? r) || indexRune t r
  end.

Definition peek (s : ss) (ok : string) : bool :=
  let '(r, _) := getRune s in indexRune ok r.

(** [SkipSpace] with [nlIsSpace = false] (the [Sscanf] family): a newline
    in the input is an error ([None]). *)
Fixpoint SkipSpace (fuel : nat) (s : ss) : option ss :=
  match fuel with
  | O => Some s
  | S k =>
    let '(r, s') := getRune s in
    if r =? eof then Some s
    else if (r =? 13) && peek s' nl then SkipSpace k s'
    else if r =? 10 then None
    else if negb (isSpace r) then Some s
    else SkipSpace k s'
  end.

(** [notEOF]: panics (caught as an error) when no input is left. *)
Definition notEOF (s : ss) : option ss :=
  let '(r, _) := getRune s in
  if r =? eof then None else Some s.

(** [accept(ok)]: consume the next rune into the buffer if it is in [ok]. *)
Definition accept (s : ss) (ok : string) : bool * ss :=
  let '(r, s') := getRune s in
  if r =? eof then (false, s)
  else if indexRune ok r then
    (true, {| rest := rest s'; count := count s';
              buf := buf s ++ String (ascii_of_N (Z.to_N r)) EmptyString |})
  else (false, s).

(** [for s.accept(digits) {}]. *)
Fixpoint acceptLoop (fuel : nat) (s : ss) (digits : string) : ss :=
  match fuel with
  | O => s
  | S k =>
    let '(b, s') := accept s digits in
    if b then acceptLoop k s' digits else s'
  end.

(** [scanNumber(digits, haveDigits = false)]. *)
Definition scanNumber (s : ss) (digits : string) : option (string * ss) :=
  match notEOF s with
  | None => None
  | Some s =>
    let '(b, s) := accept s digits in
    if negb b then None
    else
      let s := acceptLoop (String.length (rest s)) s digits in
      Some (buf s, s)
  end.

(** [scanInt('d', 64)]. *)
Definition scanInt (s : ss) : option (Z * ss) :=
  match SkipSpace (S (String.length (rest s))) s with
  | None => None
  | Some s =>
    match notEOF s with
    | None => None
    | Some s =>
      (* getBase: base 10 and the decimal digits for the verb d *)
      let digits := "0123456789" in
      let '(_, s) := accept s "+-" in
      match scanNumber s digits with
      | None => None
      | Some (tok, s) =>
        match strconv.ParseInt tok with
        | None => None
        | Some i => Some (i, s)
        end
      end
    end
  end.

(** [fmt.Sscanf(str, "%d", &n)]: [Some n] when it returns a nil error
    (input after the number is left unread), [None] when it returns an
    error. *)
Definition Sscanf_d (str : string) : option Z :=
  let s := {| rest := str; count := 0; buf := EmptyString |} in
  match SkipSpace (S (String.length str)) s with
  | None => None
  | Some s =>
    match scanInt {| rest := rest s; count := count s; buf := EmptyString |} with
    | None => None
    | Some (i, _) => Some i
    end
  end.

End fmt.

(** ** Messages and commands *)

(** Custom item for search results. *)
Record Item := {
  fileName : string;
  lineNum : string;
  content : string;
  fullPath : string
}.

(** The messages [Update] receives: key presses (by their [String()]),
    the two completion messages, window resizes, and any other [tea.Msg]
    (cursor blink, spinner tick, ...), which only the widgets interpret. *)
Inductive Msg :=
| KeyMsg (k : string)
| searchFinishedMsg (results : list Item) (err : option error)
| fileLoadedMsg (content : string) (err : option error)
| WindowSizeMsg (Width Height : Z)
| otherMsg (tag : string).

(** The commands [Update] returns. [cmd_widget] stands for the commands the
    widgets hand back (blink, spinner tick, ...). *)
#[warnings="-register-all"]
Inductive Cmd :=
| cmd_nil
| tea_Quit
| cmd_executeRipgrep (pattern path : string)
| cmd_loadFile (filepath lineNum : string)
| cmd_widget (tag : string)
| tea_Batch (cmds : list Cmd).

(** ** The outside world of the command runner *)

(** [exec.Command(name, args...)]. *)
Record Command := { Path : string; Args : list string }.

Definition exec_Command (name : string) (args : list string) : Command :=
  {| Path := name; Args := args |}.

(** What the environment answers: the combined output and error of running a
    command, the outcome of opening and reading a file, and the rendering of
    the terminal style [highlightStyle]. *)
Record World := {
  run_CombinedOutput : Command -> string * option error;
  os_Open : string -> option error;
  io_ReadAll : string -> string * option error;
  highlightStyle_Render : string -> string
}.

(** A command body reads the world and logs every external command it runs,
    in order. *)
Definition IO (A : Type) : Type := World -> list Command -> A * list Command.

Definition ret {A} (a : A) : IO A := fun _ log => (a, log).

Definition bind {A B} (c : IO A) (k : A -> IO B) : IO B :=
  fun w log => let '(a, log') := c w log in k a w log'.

Definition CombinedOutput (cmd : Command) : IO (string * option error) :=
  fun w log => (run_CombinedOutput w cmd, (log ++ [cmd])%list).

Definition Open (name : string) : IO (option error) :=
  fun w log => (os_Open w name, log).

Definition ReadAll (name : string) : IO (string * option error) :=
  fun w log => (io_ReadAll w name, log).

Definition Render (s : string) : IO string :=
  fun w log => (highlightStyle_Render w s, log).

(** Running a command body from an empty log: its message and the external
    commands it ran. *)
Definition runCmd {A} (c : IO A) (w : World) : A * list Command := c w [].

Notation "x <- c ;; k" := (bind c (fun x => k))
  (at level 61, c at next level, right associativity).
Notation "' p <- c ;; k" := (bind c (fun x => let 'p := x in k))
  (at level 61, p pattern, c at next level, right associativity).

(** ** Run ripgrep *)

(** The body of the [for _, line := range lines] loop of [executeRipgrep],
    with [results] as the accumulator. *)
Fixpoint parseLines (lines : list string) (results : list Item) : list Item :=
  match lines with
  | [] => results
  | line :: lines' =>
    if (strings.TrimSpace line =? "")%string then parseLines lines' results
    else
      let parts := strings.SplitN line colon 3 in
      if (List.length parts <? 3)%nat then parseLines lines' results
      else
        parseLines lines'
          (results ++
           [{| fileName := strings.TrimSpace (nth 0 parts "");
               lineNum := strings.TrimSpace (nth 1 parts "");
               content := strings.TrimSpace (nth 2 parts "");
               fullPath := strings.TrimSpace (nth 0 parts "") |}])
  end.

(** Lines 318-337: split the output into lines and collect the items. *)
Definition parseOutput (output : string) : list Item :=
  parseLines (strings.Split output newline) [].

Definition rgCommand (pattern path : string) : Command :=
  exec_Command "rg"
    ["--line-number"; "--color"; "never"; "--no-heading"; "--with-filename";
     pattern; path].

Definition executeRipgrep (pattern path : string) : IO Msg :=
  if (pattern =? "")%string then
    ret (searchFinishedMsg [] (Some "empty search pattern"))
  else
    '(output, err) <- CombinedOutput (rgCommand pattern path) ;;
    match
      match err with
      | Some _ =>
        if strings.Contains output "No such file or directory" then
          Some (searchFinishedMsg [] (Some ("directory not found: " ++ path)))
        else if (strings.TrimSpace output =? "")%string then
          (* rg returns exit code 1 when no matches were found *)
          Some (searchFinishedMsg [] None)
        else None
      | None => None
      end
    with
    | Some returned => ret returned
    | None => ret (searchFinishedMsg (parseOutput output) None)
    end.

(** ** Load file content for viewing *)

(** The "simple highlighting" loop of the fallback: line [i+1] of the file,
    numbered, the target line marked and rendered in [highlightStyle]. *)
Fixpoint renderLines (lines : list string) (i lineNumInt : Z)
         (highlightedContent : string) : IO string :=
  match lines with
  | [] => ret highlightedContent
  | line :: lines' =>
    let lineNumberStr := fmt.Sprint_4d (int_add i 1) ++ " | " in
    if int_add i 1 =? lineNumInt then
      rendered <- Render line ;;
      renderLines lines' (int_add i 1) lineNumInt
        (highlightedContent ++ "→ " ++ lineNumberStr ++ rendered ++ nl)
    else
      renderLines lines' (int_add i 1) lineNumInt
        (highlightedContent ++ "  " ++ lineNumberStr ++ line ++ nl)
  end.

Definition batCommand (lineNum filepath : string) : Command :=
  exec_Command "bat"
    ["--color=always"; "--style=full"; "--highlight-line"; lineNum; filepath].

Definition batPlainCommand (filepath : string) : Command :=
  exec_Command "bat" ["--color=always"; "--style=full"; filepath].

Definition errContains (err : option error) (substr : string) : bool :=
  match err with
  | Some e => strings.Contains e substr
  | None => false
  end.

Definition loadFile (filepath lineNum : string) : IO Msg :=
  (* Try using bat with line highlighting *)
  match fmt.Sscanf_d lineNum with
  | None => ret (fileLoadedMsg "" (Some ("invalid line number: " ++ lineNum)))
  | Some lineNumInt =>
    '(output, err) <- CombinedOutput (batCommand lineNum filepath) ;;
    (* Fallback to regular cat if bat is not installed *)
    if errContains err "executable file not found" then
      err <- Open filepath ;;
      match err with
      | Some e => ret (fileLoadedMsg "" (Some e))
      | None =>
        '(content, err) <- ReadAll filepath ;;
        match err with
        | Some e => ret (fileLoadedMsg "" (Some e))
        | None =>
          highlightedContent <-
            renderLines (strings.Split content newline) 0 lineNumInt "" ;;
          ret (fileLoadedMsg highlightedContent None)
        end
      end
    else
      match err with
      | None =>
        (* If bat was successful, return its output *)
        ret (fileLoadedMsg output None)
      | Some _ =>
        (* If bat failed for any other reason, try without line highlighting *)
        '(output, err) <- CombinedOutput (batPlainCommand filepath) ;;
        match err with
        | Some e => ret (fileLoadedMsg "" (Some e))
        | None => ret (fileLoadedMsg output None)
        end
      end
  end.

(** ** Key bindings *)
Module key.

(** [key.Binding]: the keys it answers to, its help text, and whether it
    has been disabled. *)
Record Binding := {
  keys : list string;
  help_key : string;
  help_desc : string;
  disabled : bool
}.

(** [key.NewBinding(key.WithKeys(ks...), key.WithHelp(k, desc))]. *)
Definition NewBinding (ks : list string) (k desc : string) : Binding :=
  {| keys := ks; help_key := k; help_desc := desc; disabled := false |}.

Definition Enabled (b : Binding) : bool :=
  negb (disabled b) && negb (Nat.eqb (List.length (keys b)) 0).

(** [key.Matches(msg, b)]: the key's [String()] is one of the binding's
    keys and the binding is enabled. *)
Definition Matches (k : string) (b : Binding) : bool :=
  existsb (fun v => String.eqb k v && Enabled b) (keys b).

End key.

(** Key mappings *)
Record keyMap := {
  Search : key.Binding;
  Search2 : key.Binding;
  Enter : key.Binding;
  Back : key.Binding;
  Quit : key.Binding;
  Help : key.Binding;
  Tab : key.Binding;
  InputNext : key.Binding;
  InputPrev : key.Binding
}.

Definition keys : keyMap := {|
  Search := key.NewBinding ["ctrl+f"] "ctrl+f" "search";
  Search2 := key.NewBinding ["ctrl+s"] "ctrl+s" "search";
  Enter := key.NewBinding ["enter"] "enter" "select";
  Back := key.NewBinding ["esc"] "esc" "back";
  Quit := key.NewBinding ["ctrl+c"; "q"] "ctrl+c/q" "quit";
  Help := key.NewBinding ["?"] "?" "toggle help";
  Tab := key.NewBinding ["ctrl+t"] "ctrl+t" "next tab";
  InputNext := key.NewBinding ["tab"] "tab" "next input";
  InputPrev := key.NewBinding ["shift+tab"] "shift+tab" "previous input"
|}.

(** ** The widgets

    The text inputs, the result list and the file viewport come from the
    bubbles library; the program uses them through the operations below.
    Their internal state (cursor position, pagination, filter, scroll
    offset, ...) and their own [Update] are left to the instance; the laws
    are the ones of the [focus] flag of [textinput.Model]. *)
Class Bubbles := {
  textinput_Model : Type;
  textinput_New : textinput_Model;
  textinput_Focus : textinput_Model -> textinput_Model;
  textinput_Blur : textinput_Model -> textinput_Model;
  textinput_Focused : textinput_Model -> bool;
  textinput_Value : textinput_Model -> string;
  textinput_SetWidth : textinput_Model -> Z -> textinput_Model;
  textinput_Update : textinput_Model -> Msg -> textinput_Model * Cmd;

  list_Model : Type;
  list_New : list Item -> Z -> Z -> list_Model;
  list_Items : list_Model -> list Item;
  list_SelectedItem : list_Model -> option Item;
  list_SetItems : list_Model -> list Item -> list_Model;
  list_SetSize : list_Model -> Z -> Z -> list_Model;
  list_StartSpinner : list_Model -> list_Model * Cmd;
  list_Update : list_Model -> Msg -> list_Model * Cmd;

  viewport_Model : Type;
  viewport_New : Z -> Z -> viewport_Model;
  viewport_SetContent : viewport_Model -> string -> viewport_Model;
  viewport_GotoTop : viewport_Model -> viewport_Model;
  viewport_SetWidth : viewport_Model -> Z -> viewport_Model;
  viewport_SetHeight : viewport_Model -> Z -> viewport_Model;
  viewport_Update : viewport_Model -> Msg -> viewport_Model * Cmd;

  Focused_New : textinput_Focused textinput_New = false;
  Focused_Focus : forall t, textinput_Focused (textinput_Focus t) = true;
  Focused_Blur : forall t, textinput_Focused (textinput_Blur t) = false;
  Focused_SetWidth : forall t w,
    textinput_Focused (textinput_SetWidth t w) = textinput_Focused t
}.

(** [help.Model], as far as the program touches it. *)
Record help_Model := { ShowAll : bool; help_Width : Z }.

Definition help_New : help_Model := {| ShowAll := false; help_Width := 0 |}.

(** ** The tabs available in the UI *)
Definition tab := Z.
Definition searchTab : tab := 0.
Definition resultsTab : tab := 1.
Definition fileTab : tab := 2.

Section Application.

Context {B : Bubbles}.

(** Main application model *)
Record model := {
  tabs : list string;
  activeTab : tab;
  searchInput : textinput_Model;
  directoryInput : textinput_Model;
  searchResults : list_Model;
  fileViewer : viewport_Model;
  statusMessage : string;
  statusMessageType : string; (* "info", "error" *)
  width : Z;
  height : Z;
  showStatusBar : bool;
  ready : bool;
  help : help_Model;
  currentPath : string;
  currentSearchPattern : string;
  keymap : keyMap
}.

(** Field assignments [m.f = v]. *)
Definition set_activeTab (m : model) (v : tab) : model :=
  {| tabs := tabs m; activeTab := v; searchInput := searchInput m;
     directoryInput := directoryInput m; searchResults := searchResults m;
     fileViewer := fileViewer m; statusMessage := statusMessage m;
     statusMessageType := statusMessageType m; width := width m;
     height := height m; showStatusBar := showStatusBar m; ready := ready m;
     help := help m; currentPath := currentPath m;
     currentSearchPattern := currentSearchPattern m; keymap := keymap m |}.

Definition set_searchInput (m : model) (v : textinput_Model) : model :=
  {| tabs := tabs m; activeTab := activeTab m; searchInput := v;
     directoryInput := directoryInput m; searchResults := searchResults m;
     fileViewer := fileViewer m; statusMessage := statusMessage m;
     statusMessageType := statusMessageType m; width := width m;
     height := height m; showStatusBar := showStatusBar m; ready := ready m;
     help := help m; currentPath := currentPath m;
     currentSearchPattern := currentSearchPattern m; keymap := keymap m |}.

Definition set_directoryInput (m : model) (v : textinput_Model) : model :=
  {| tabs := tabs m; activeTab := activeTab m; searchInput := searchInput m;
     directoryInput := v; searchResults := searchResults m;
     fileViewer := fileViewer m; statusMessage := statusMessage m;
     statusMessageType := statusMessageType m; width := width m;
     height := height m; showStatusBar := showStatusBar m; ready := ready m;
     help := help m; currentPath := currentPath m;
     currentSearchPattern := currentSearchPattern m; keymap := keymap m |}.

Definition set_searchResults (m : model) (v : list_Model) : model :=
  {| tabs := tabs m; activeTab := activeTab m; searchInput := searchInput m;
     directoryInput := directoryInput m; searchResults := v;
     fileViewer := fileViewer m; statusMessage := statusMessage m;
     statusMessageType := statusMessageType m; width := width m;
     height := height m; showStatusBar := showStatusBar m; ready := ready m;
     help := help m; currentPath := currentPath m;
     currentSearchPattern := currentSearchPattern m; keymap := keymap m |}.

Definition set_fileViewer (m : model) (v : viewport_Model) : model :=
  {| tabs := tabs m; activeTab := activeTab m; searchInput := searchInput m;
     directoryInput := directoryInput m; searchResults := searchResults m;
     fileViewer := v; statusMessage := statusMessage m;
     statusMessageType := statusMessageType m; width := width m;
     height := height m; showStatusBar := showStatusBar m; ready := ready m;
     help := help m; currentPath := currentPath m;
     currentSearchPattern := currentSearchPattern m; keymap := keymap m |}.

(** [m.statusMessage = msg; m.statusMessageType = ty]. *)
Definition set_status (m : model) (msg ty : string) : model :=
  {| tabs := tabs m; activeTab := activeTab m; searchInput := searchInput m;
     directoryInput := directoryInput m; searchResults := searchResults m;
     fileViewer := fileViewer m; statusMessage := msg;
     statusMessageType := ty; width := width m;
     height := height m; showStatusBar := showStatusBar m; ready := ready m;
     help := help m; currentPath := currentPath m;
     currentSearchPattern := currentSearchPattern m; keymap := keymap m |}.

(** [m.width, m.height = w, h; m.ready = true]. *)
Definition set_size (m : model) (w h : Z) : model :=
  {| tabs := tabs m; activeTab := activeTab m; searchInput := searchInput m;
     directoryInput := directoryInput m; searchResults := searchResults m;
     fileViewer := fileViewer m; statusMessage := statusMessage m;
     statusMessageType := statusMessageType m; width := w;
     height := h; showStatusBar := showStatusBar m; ready := true;
     help := help m; currentPath := currentPath m;
     currentSearchPattern := currentSearchPattern m; keymap := keymap m |}.

Definition set_help (m : model) (v : help_Model) : model :=
  {| tabs := tabs m; activeTab := activeTab m; searchInput := searchInput m;
     directoryInput := directoryInput m; searchResults := searchResults m;
     fileViewer := fileViewer m; statusMessage := statusMessage m;
     statusMessageType := statusMessageType m; width := width m;
     height := height m; showStatusBar := showStatusBar m; ready := ready m;
     help := v; currentPath := currentPath m;
     currentSearchPattern := currentSearchPattern m; keymap := keymap m |}.

Definition set_currentSearchPattern (m : model) (v : string) : model :=
  {| tabs := tabs m; activeTab := activeTab m; searchInput := searchInput m;
     directoryInput := directoryInput m; searchResults := searchResults m;
     fileViewer := fileViewer m; statusMessage := statusMessage m;
     statusMessageType := statusMessageType m; width := width m;
     height := height m; showStatusBar := showStatusBar m; ready := ready m;
     help := help m; currentPath := currentPath m;
     currentSearchPattern := v; keymap := keymap m |}.

(** [initialModel], given what [os.Getwd()] returned. Placeholders, prompts
    and styles are presentation and left out. *)
Definition initialModel (getwd : string * option error) : model :=
  let searchInput := textinput_New in
  let searchInput := textinput_Focus searchInput in
  let searchInput := textinput_SetWidth searchInput 80 in
  let currentPath :=
    match snd getwd with
    | Some _ => "."
    | None => fst getwd
    end in
  let directoryInput := textinput_New in
  let directoryInput := textinput_SetWidth directoryInput 80 in
  let resultsList := list_New [] 0 0 in
  let fileViewer := viewport_New 0 0 in
  {| tabs := ["Search"; "Results"; "File View"];
     activeTab := searchTab;
     searchInput := searchInput;
     directoryInput := directoryInput;
     searchResults := resultsList;
     fileViewer := fileViewer;
     statusMessage := "Welcome to LazyRG! Press Ctrl+F to search";
     statusMessageType := "info";
     width := 0;
     height := 0;
     showStatusBar := true;
     ready := false;
     help := help_New;
     currentPath := currentPath;
     currentSearchPattern := EmptyString;
     keymap := keys |}.

(** The end of [Update]: "Handle updates for different components based on
    active tab", reached by every message the first [switch] did not return
    on. *)
Definition routeToTab (m : model) (msg : Msg) (cmds : list Cmd) : model * Cmd :=
  if activeTab m =? searchTab then
    let toInput :=
      if textinput_Focused (searchInput m) then
        let '(input, cmd) := textinput_Update (searchInput m) msg in
        (set_searchInput m input, tea_Batch (cmds ++ [cmd]))
      else
        let '(input, cmd) := textinput_Update (directoryInput m) msg in
        (set_directoryInput m input, tea_Batch (cmds ++ [cmd])) in
    let toggle :=
      if textinput_Focused (searchInput m) then
        let m := set_searchInput m (textinput_Blur (searchInput m)) in
        let m := set_directoryInput m (textinput_Focus (directoryInput m)) in
        (m, cmd_nil)
      else
        let m := set_directoryInput m (textinput_Blur (directoryInput m)) in
        let m := set_searchInput m (textinput_Focus (searchInput m)) in
        (m, cmd_nil) in
    match msg with
    | KeyMsg k =>
      if key.Matches k (InputNext (keymap m)) then toggle
      else if key.Matches k (InputPrev (keymap m)) then toggle
      else toInput
    | _ => toInput
    end
  else if activeTab m =? resultsTab then
    let '(results, cmd) := list_Update (searchResults m) msg in
    (set_searchResults m results, tea_Batch (cmds ++ [cmd]))
  else if activeTab m =? fileTab then
    let '(viewer, cmd) := viewport_Update (fileViewer m) msg in
    (set_fileViewer m viewer, tea_Batch (cmds ++ [cmd]))
  else (m, tea_Batch cmds).

Definition Update (m : model) (msg : Msg) : model * Cmd :=
  let cmds : list Cmd := [] in
  match msg with
  | KeyMsg k =>
    if key.Matches k (Quit (keymap m)) then (m, tea_Quit)
    else if key.Matches k (Help (keymap m)) then
      (set_help m {| ShowAll := negb (ShowAll (help m));
                     help_Width := help_Width (help m) |}, cmd_nil)
    else if key.Matches k (Tab (keymap m)) then
      let m := set_activeTab m (Z.rem (int_add (activeTab m) 1) 3) in
      if activeTab m =? searchTab then
        (set_searchInput m (textinput_Focus (searchInput m)), tea_Batch cmds)
      else if activeTab m =? resultsTab then
        if (0 <? List.length (list_Items (searchResults m)))%nat then
          let '(results, cmd) := list_StartSpinner (searchResults m) in
          (set_searchResults m results, tea_Batch (cmds ++ [cmd]))
        else (m, tea_Batch cmds)
      else (m, tea_Batch cmds)
    else if key.Matches k (Search (keymap m))
            || key.Matches k (Search2 (keymap m)) then
      if negb (activeTab m =? searchTab) then
        let m := set_activeTab m searchTab in
        (set_searchInput m (textinput_Focus (searchInput m)), cmd_nil)
      else (m, cmd_nil)
    else if key.Matches k (Back (keymap m)) then
      if activeTab m =? fileTab then (set_activeTab m resultsTab, cmd_nil)
      else if activeTab m =? resultsTab then
        let m := set_activeTab m searchTab in
        (set_searchInput m (textinput_Focus (searchInput m)), cmd_nil)
      else (m, cmd_nil)
    else if key.Matches k (Enter (keymap m)) then
      if activeTab m =? searchTab then
        if negb (textinput_Value (searchInput m) =? "")%string then
          let m := set_currentSearchPattern m (textinput_Value (searchInput m)) in
          let searchPath := currentPath m in
          let searchPath :=
            if negb (textinput_Value (directoryInput m) =? "")%string
            then textinput_Value (directoryInput m) else searchPath in
          let m := set_activeTab m resultsTab in
          let m := set_status m
                     ("Searching for: " ++ currentSearchPattern m ++ " in "
                      ++ searchPath) "info" in
          (m, cmd_executeRipgrep (currentSearchPattern m) searchPath)
        else routeToTab m msg cmds
      else if activeTab m =? resultsTab then
        if (0 <? List.length (list_Items (searchResults m)))%nat then
          match list_SelectedItem (searchResults m) with
          | Some item =>
            let m := set_activeTab m fileTab in
            let m := set_status m ("Viewing file: " ++ fullPath item) "info" in
            (m, cmd_loadFile (fullPath item) (lineNum item))
          | None => routeToTab m msg cmds
          end
        else routeToTab m msg cmds
      else routeToTab m msg cmds
    else routeToTab m msg cmds

  | searchFinishedMsg results err =>
    match err with
    | Some e => (set_status m ("Error: " ++ e) "error", cmd_nil)
    | None =>
      let items := results in
      let m :=
        if Nat.eqb (List.length items) 0 then
          set_status m "No results found" "info"
        else
          set_status m
            ("Found " ++ fmt.Sprint_d (Z.of_nat (List.length items))
             ++ " results") "info" in
      (set_searchResults m (list_SetItems (searchResults m) items), cmd_nil)
    end

  | fileLoadedMsg content err =>
    match err with
    | Some e =>
      let m := set_status m ("Error loading file: " ++ e) "error" in
      (set_activeTab m resultsTab, cmd_nil)
    | None =>
      let m := set_fileViewer m (viewport_SetContent (fileViewer m) content) in
      (* Reset viewport to top when loading new file *)
      (set_fileViewer m (viewport_GotoTop (fileViewer m)), cmd_nil)
    end

  | WindowSizeMsg Width Height =>
    let m := set_size m Width Height in
    let topHeight := 6 in
    let helpHeight := 2 in
    let statusHeight := 1 in
    let borderHeight := 2 in
    let availableHeight :=
      int_sub (int_sub (int_sub (int_sub (height m) topHeight) helpHeight)
                       statusHeight) borderHeight in
    let m := set_searchInput m
               (textinput_SetWidth (searchInput m) (int_sub Width 30)) in
    let m := set_directoryInput m
               (textinput_SetWidth (directoryInput m) (int_sub Width 30)) in
    let h := availableHeight in
    let h := if ShowAll (help m) then int_sub h 4 else h in
    let m := set_searchResults m
               (list_SetSize (searchResults m) (int_sub Width 4) h) in
    let m := set_fileViewer m
               (viewport_SetWidth (fileViewer m) (int_sub Width 8)) in
    let m := set_fileViewer m (viewport_SetHeight (fileViewer m) h) in
    let m := set_fileViewer m (viewport_GotoTop (fileViewer m)) in
    let m := set_help m {| ShowAll := ShowAll (help m); help_Width := Width |} in
    (m, cmd_nil)

  | otherMsg _ => routeToTab m msg cmds
  end.

(** The state after a sequence of messages, each dispatched by [Update]. *)
Fixpoint dispatch (m : model) (msgs : list Msg) : model :=
  match msgs with
  | [] => m
  | msg :: msgs' => dispatch (fst (Update m msg)) msgs'
  end.

End Application.

(** ** A plain instance of the widgets

    Enough of the three widgets to run the dispatcher on concrete inputs: a
    text input that appends typed characters while focused, a list with a
    cursor moved by [up]/[down], a viewport that holds its content. *)

Record plain_textinput := { ti_value : string; ti_focus : bool; ti_Width : Z }.

Record plain_list := {
  pl_items : list Item; pl_cursor : nat; pl_spinner : bool;
  pl_width : Z; pl_height : Z
}.

Record plain_viewport := {
  vp_content : string; vp_YOffset : Z; vp_Width : Z; vp_Height : Z
}.

Definition plain_textinput_Update (t : plain_textinput) (msg : Msg)
  : plain_textinput * Cmd :=
  if negb (ti_focus t) then (t, cmd_nil)
  else
    match msg with
    | KeyMsg k =>
      if (String.length k =? 1)%nat then
        ({| ti_value := ti_value t ++ k; ti_focus := true;
            ti_Width := ti_Width t |}, cmd_nil)
      else (t, cmd_nil)
    | _ => (t, cmd_nil)
    end.

Definition plain_list_Update (l : plain_list) (msg : Msg) : plain_list * Cmd :=
  match msg with
  | KeyMsg k =>
    if (k =? "down")%string && (S (pl_cursor l) <? List.length (pl_items l))%nat
    then ({| pl_items := pl_items l; pl_cursor := S (pl_cursor l);
             pl_spinner := pl_spinner l; pl_width := pl_width l;
             pl_height := pl_height l |}, cmd_nil)
    else if (k =? "up")%string
    then ({| pl_items := pl_items l; pl_cursor := Nat.pred (pl_cursor l);
             pl_spinner := pl_spinner l; pl_width := pl_width l;
             pl_height := pl_height l |}, cmd_nil)
    else (l, cmd_nil)
  | _ => (l, cmd_nil)
  end.

#[refine]
Instance plainBubbles : Bubbles := {|
  textinput_Model := plain_textinput;
  textinput_New := {| ti_value := EmptyString; ti_focus := false; ti_Width := 0 |};
  textinput_Focus := fun t =>
    {| ti_value := ti_value t; ti_focus := true; ti_Width := ti_Width t |};
  textinput_Blur := fun t =>
    {| ti_value := ti_value t; ti_focus := false; ti_Width := ti_Width t |};
  textinput_Focused := ti_focus;
  textinput_Value := ti_value;
  textinput_SetWidth := fun t w =>
    {| ti_value := ti_value t; ti_focus := ti_focus t; ti_Width := w |};
  textinput_Update := plain_textinput_Update;

  list_Model := plain_list;
  list_New := fun items w h =>
    {| pl_items := items; pl_cursor := 0; pl_spinner := false;
       pl_width := w; pl_height := h |};
  list_Items := pl_items;
  list_SelectedItem := fun l => nth_error (pl_items l) (pl_cursor l);
  list_SetItems := fun l items =>
    {| pl_items := items;
       pl_cursor := Nat.min (pl_cursor l) (Nat.pred (List.length items));
       pl_spinner := pl_spinner l; pl_width := pl_width l;
       pl_height := pl_height l |};
  list_SetSize := fun l w h =>
    {| pl_items := pl_items l; pl_cursor := pl_cursor l;
       pl_spinner := pl_spinner l; pl_width := w; pl_height := h |};
  list_StartSpinner := fun l =>
    ({| pl_items := pl_items l; pl_cursor := pl_cursor l; pl_spinner := true;
        pl_width := pl_width l; pl_height := pl_height l |},
     cmd_widget "spinner.Tick");
  list_Update := plain_list_Update;

  viewport_Model := plain_viewport;
  viewport_New := fun w h =>
    {| vp_content := EmptyString; vp_YOffset := 0; vp_Width := w; vp_Height := h |};
  viewport_SetContent := fun v s =>
    {| vp_content := s; vp_YOffset := vp_YOffset v; vp_Width := vp_Width v;
       vp_Height := vp_Height v |};
  viewport_GotoTop := fun v =>
    {| vp_content := vp_content v; vp_YOffset := 0; vp_Width := vp_Width v;
       vp_Height := vp_Height v |};
  viewport_SetWidth := fun v w =>
    {| vp_content := vp_content v; vp_YOffset := vp_YOffset v; vp_Width := w;
       vp_Height := vp_Height v |};
  viewport_SetHeight := fun v h =>
    {| vp_content := vp_content v; vp_YOffset := vp_YOffset v;
       vp_Width := vp_Width v; vp_Height := h |};
  viewport_Update := fun v _ => (v, cmd_nil)
|}.
Proof.
  - reflexivity.
  - reflexivity.
  - reflexivity.
  - reflexivity.
Defined.

(** ** Vocabulary of the properties *)

(** The number of bytes of [s] equal to [c]. *)
Fixpoint countByte (c : ascii) (s : string) : nat :=
  match s with
  | EmptyString => 0%nat
  | String x t => ((if Ascii.eqb x c then 1 else 0) + countByte c t)%nat
  end.

(** A well-formed output line [file:line:text] has at least two colons. *)
Definition wellFormed (line : string) : bool :=
  (2 <=? countByte colon line)%nat.

(** The [Item] appended for an accepted line (lines 326-336). *)
Definition recordOf (line : string) : Item :=
  let parts := strings.SplitN line colon 3 in
  {| fileName := strings.TrimSpace (nth 0 parts "");
     lineNum := strings.TrimSpace (nth 1 parts "");
     content := strings.TrimSpace (nth 2 parts "");
     fullPath := strings.TrimSpace (nth 0 parts "") |}.

(** The two tests a line passes before an [Item] is appended. *)
Definition accepted (line : string) : bool :=
  negb (strings.TrimSpace line =? "")%string
  && negb (List.length (strings.SplitN line colon 3) <? 3)%nat.

(** The text parses successfully as a positive integer, by the scanner the
    program itself uses on line numbers. *)
Definition parsesPositive (s : string) : bool :=
  match fmt.Sscanf_d s with
  | Some n => 0 <? n
  | None => false
  end.

(** A byte that [TrimSpace] may remove: part of a multi-byte sequence, or
    an ASCII white space. *)
Definition trimmable (c : ascii) : bool :=
  (0x80 <=? byte_val c) || unicode.IsSpace (byte_val c).

(** The text is the decimal numeral of a positive integer that fits
    [int64]: digits only, at least one, fewer than the scanner's width
    limit. *)
Definition positiveNumeral (s : string) : bool :=
  negb (s =? "")%string
  && all_bytes strconv.isDigit s
  && (Z.of_nat (String.length s) <? fmt.hugeWid)
  && match strconv.digitsValue 0 s with
     | Some v => (0 <? v) && (v <? 2^63)
     | None => false
     end.

(** ** Sample environments *)

(** An environment in which every external command answers by [run], files
    open and read as empty, and the highlight style adds nothing. *)
Definition worldOf (run : Command -> string * option error) : World :=
  {| run_CombinedOutput := run;
     os_Open := fun _ => None;
     io_ReadAll := fun _ => (EmptyString, None);
     highlightStyle_Render := fun s => s |}.

(** ripgrep rejecting the pattern: a diagnostic on the combined output and
    exit status 2. *)
Definition regexErrorOutput : string :=
  "rg: regex parse error:" ++ nl ++ "    (?:()" ++ nl ++ "    ^" ++ nl
  ++ "error: unclosed group" ++ nl.

Definition regexErrorWorld : World :=
  worldOf (fun _ => (regexErrorOutput, Some "exit status 2")).

(** ripgrep finding nothing: no output, exit status 1. *)
Definition noMatchWorld : World :=
  worldOf (fun _ => (EmptyString, Some "exit status 1")).

(** A pager that prints the file whatever its arguments. *)
Definition pagerWorld : World :=
  worldOf (fun _ => ("package main", None)).

(** A pager that rejects the line-marking argument and prints the file
    without it. *)
Definition strictPagerWorld : World :=
  worldOf (fun cmd =>
             if existsb (String.eqb "--highlight-line") (Args cmd)
             then ("[bat error]: invalid line", Some "exit status 1")
             else ("package main", None)).

(** The application on the plain widgets, started in [/src]. *)
Definition plainStart : model (B := plainBubbles) :=
  initialModel ("/src", None).

(** The search view with both of its inputs focused. *)
Definition bothFocused {B : Bubbles} (m : model) : Prop :=
  activeTab m = searchTab
  /\ textinput_Focused (searchInput m) = true
  /\ textinput_Focused (directoryInput m) = true.

(** What the focus argument tracks of a state. *)
Definition focusView {B : Bubbles} (m : model) : keyMap * tab * bool * bool :=
  (keymap m, activeTab m, textinput_Focused (searchInput m),
   textinput_Focused (directoryInput m)).

(** One line of search output, and the plain application showing its
    records on the results tab. *)
Definition sampleOutput : string := "a.go:3:// TODO fix".

Definition sampleItem : Item :=
  {| fileName := "a.go"; lineNum := "3"; content := "// TODO fix";
     fullPath := "a.go" |}.

Definition plainResults : model (B := plainBubbles) :=
  dispatch plainStart
    [KeyMsg "ctrl+t"; searchFinishedMsg (parseOutput sampleOutput) None].

(** ** The rest of the program's vocabulary *)

(** The three methods of [Item] that make it a list item. *)
Definition Title (i : Item) : string := fileName i ++ ":" ++ lineNum i.
Definition Description (i : Item) : string := content i.
Definition FilterValue (i : Item) : string := fileName i ++ content i.

(** [keyMap.ShortHelp] and [keyMap.FullHelp]. *)
Definition ShortHelp (k : keyMap) : list key.Binding := [Help k; Quit k].

Definition FullHelp (k : keyMap) : list (list key.Binding) :=
  [[Search k; Search2 k; Enter k];
   [Back k; Tab k; Quit k];
   [InputNext k; InputPrev k]].

(** The bindings [Update] tests a key against, in the order of its cases. *)
Definition bindings (k : keyMap) : list key.Binding :=
  [Quit k; Help k; Tab k; Search k; Search2 k; Back k; Enter k;
   InputNext k; InputPrev k].

(** [model.Init]. *)
Definition Init {B : Bubbles} (m : model) : Cmd := cmd_widget "textinput.Blink".

Definition isWindowSizeMsg (msg : Msg) : bool :=
  match msg with
  | WindowSizeMsg _ _ => true
  | _ => false
  end.

(** The rows the fallback of [loadFile] prints for line [i+1] of a file:
    plain, or marked as the target line. *)
Definition plainRow (i : Z) (line : string) : string :=
  "  " ++ (fmt.Sprint_4d (i + 1) ++ " | ") ++ line ++ nl.

Definition markedRow (w : World) (i : Z) (line : string) : string :=
  "→ " ++ (fmt.Sprint_4d (i + 1) ++ " | ") ++ highlightStyle_Render w line ++ nl.

(** The rows of the lines [lines], the first of which is line [i+1]. *)
Fixpoint rawRows (w : World) (lineNumInt : Z) (i : Z) (lines : list string)
  : list string :=
  match lines with
  | [] => []
  | line :: lines' =>
    (if i + 1 =? lineNumInt then markedRow w i line else plainRow i line)
      :: rawRows w lineNumInt (i + 1) lines'
  end.

(** The plain rows of the lines [lines], the first of which is line [i+1]. *)
Fixpoint plainRows (i : Z) (lines : list string) : list string :=
  match lines with
  | [] => []
  | line :: lines' => plainRow i line :: plainRows (i + 1) lines'
  end.

(** The error a search completion carries, if any, and its results. *)
Definition completionError (msg : Msg) : option error :=
  match msg with
  | searchFinishedMsg _ err => err
  | fileLoadedMsg _ err => err
  | _ => None
  end.

Definition completionResults (msg : Msg) : list Item :=
  match msg with
  | searchFinishedMsg results _ => results
  | _ => []
  end.

(** The text has no line feed in it. *)
Definition oneLine (s : string) : Prop := countByte newline s = 0%nat.

(** An environment without the pager: running it fails at look-up; the file
    [main.go] has the two lines given. *)
Definition noPagerWorld : World :=
  {| run_CombinedOutput := fun _ =>
       (EmptyString, Some "exec: bat: executable file not found in $PATH");
     os_Open := fun _ => None;
     io_ReadAll := fun _ => ("package main" ++ nl ++ "func main() {}", None);
     highlightStyle_Render := fun s => "<" ++ s ++ ">" |}.

(** ** A decimal integer at the start of a text

    What [fmt.Sscanf] with [%d] accepts, said directly: white space other
    than a line feed, then an optional sign, then decimal digits, as many
    as there are and at least one, whose number fits [int64]; whatever
    follows the digits is left alone. *)

(** The text after its leading white space; [None] when a line feed stands
    in that white space. *)
Fixpoint skipBlanks (fuel : nat) (s : string) : option string :=
  match fuel with
  | O => Some s
  | S k =>
    match s with
    | EmptyString => Some s
    | _ =>
      let '(r, size) := utf8.DecodeRuneInString s in
      if r =? 10 then None
      else if fmt.isSpace r then skipBlanks k (drop size s)
      else Some s
    end
  end.

(** The longest run of decimal digits at the start of [s]. *)
Fixpoint digitRun (s : string) : string :=
  match s with
  | EmptyString => EmptyString
  | String c t =>
    if strconv.isDigit c then String c (digitRun t) else EmptyString
  end.

(** The number a run of decimal digits denotes. *)
Fixpoint numeralValue (acc : Z) (ds : string) : Z :=
  match ds with
  | EmptyString => acc
  | String c t => numeralValue (acc * 10 + (byte_val c - 48)) t
  end.

Definition decimalPrefix (s : string) : option Z :=
  match skipBlanks (String.length s) s with
  | None => None
  | Some body =>
    let neg :=
      match body with
      | String c _ => Ascii.eqb c "-"
      | EmptyString => false
      end in
    let unsigned :=
      match body with
      | String c t => if Ascii.eqb c "+" || Ascii.eqb c "-" then t else body
      | EmptyString => body
      end in
    let ds := digitRun unsigned in
    if (ds =? "")%string then None
    else
      let v := if neg then - numeralValue 0 ds else numeralValue 0 ds in
      if (- 2^63 <=? v) && (v <? 2^63) then Some v else None
  end.

(** ** The widget of the active tab *)

(** Handing a message to the widget of the active tab: the focused text
    input in the search view, the list in the results view, the viewer in
    the file view. *)
Definition passToWidget {B : Bubbles} (m : model) (msg : Msg) : model * Cmd :=
  if activeTab m =? searchTab then
    if textinput_Focused (searchInput m) then
      let '(input, cmd) := textinput_Update (searchInput m) msg in
      (set_searchInput m input, tea_Batch [cmd])
    else
      let '(input, cmd) := textinput_Update (directoryInput m) msg in
      (set_directoryInput m input, tea_Batch [cmd])
  else if activeTab m =? resultsTab then
    let '(results, cmd) := list_Update (searchResults m) msg in
    (set_searchResults m results, tea_Batch [cmd])
  else if activeTab m =? fileTab then
    let '(viewer, cmd) := viewport_Update (fileViewer m) msg in
    (set_fileViewer m viewer, tea_Batch [cmd])
  else (m, tea_Batch []).

(** The bindings the help shows, full and short. *)
Definition helpBindings (k : keyMap) : list key.Binding :=
  (List.concat (FullHelp k) ++ ShortHelp k)%list.

(** * Properties of the string model *)

Lemma append_nil_r (s : string) : s ++ "" = s.
Proof. induction s as [|c s IH]; simpl; [reflexivity | now rewrite IH]. Qed.

Lemma append_assoc (a b c : string) : (a ++ b) ++ c = a ++ (b ++ c).
Proof. induction a as [|x a IH]; simpl; [reflexivity | now rewrite IH]. Qed.

Lemma length_append (a b : string) :
  String.length (a ++ b) = (String.length a + String.length b)%nat.
Proof. induction a as [|x a IH]; simpl; [reflexivity | now rewrite IH]. Qed.

Lemma all_bytes_append p (a b : string) :
  all_bytes p (a ++ b) = all_bytes p a && all_bytes p b.
Proof.
  induction a as [|x a IH]; simpl; [reflexivity|].
  now rewrite IH, andb_assoc.
Qed.

Lemma byte_val_range c : 0 <= byte_val c < 256.
Proof.
  unfold byte_val.
  destruct c as [[] [] [] [] [] [] [] []]; vm_compute; split; congruence.
Qed.

Lemma first_cases b :
  (b < 0x80 /\ utf8.first b = utf8.as_) \/ utf8.first b = utf8.xx
  \/ (0xC2 <= b /\ In (utf8.first b)
        [utf8.s1; utf8.s2; utf8.s3; utf8.s4; utf8.s5; utf8.s6; utf8.s7]).
Proof.
  unfold utf8.first.
  repeat match goal with
         | |- context [if ?c then _ else _] =>
           let E := fresh "E" in destruct c eqn:E
         end;
  repeat match goal with
         | H : (_ <? _) = true |- _ => apply Z.ltb_lt in H
         | H : (_ <? _) = false |- _ => apply Z.ltb_ge in H
         | H : (_ =? _) = true |- _ => apply Z.eqb_eq in H
         | H : (_ =? _) = false |- _ => apply Z.eqb_neq in H
         end;
  try (left; split; [lia | reflexivity]);
  try (right; left; reflexivity);
  right; right; (split; [lia | simpl; tauto]).
Qed.

Ltac bool_to_prop :=
  repeat match goal with
         | H : (_ || _) = false |- _ => apply orb_false_elim in H; destruct H
         | H : (_ <? _) = false |- _ => apply Z.ltb_ge in H
         | H : (_ <? _) = true |- _ => apply Z.ltb_lt in H
         | H : (_ <=? _) = true |- _ => apply Z.leb_le in H
         | H : (_ <=? _) = false |- _ => apply Z.leb_gt in H
         | H : (_ =? _) = true |- _ => apply Z.eqb_eq in H
         | H : (_ =? _) = false |- _ => apply Z.eqb_neq in H
         end.

Lemma trimmable_high c : 0x80 <= byte_val c -> trimmable c = true.
Proof.
  intros H. unfold trimmable. apply orb_true_iff. left. now apply Z.leb_le.
Qed.

Ltac dec_step H :=
  match type of H with
  | (if ?c then _ else _) = _ => destruct c eqn:?
  | match ?t with EmptyString => _ | String _ _ => _ end = _ => destruct t
  end.

Lemma Decode_trimmable s r size :
  utf8.DecodeRuneInString s = (r, size) ->
  s <> EmptyString ->
  unicode.IsSpace r = true ->
  exists pre, s = pre ++ drop size s /\ String.length pre = size
              /\ (1 <= size)%nat /\ all_bytes trimmable pre = true.
Proof.
  intros H Hne Hsp.
  destruct s as [|c0 t0]; [congruence|]. clear Hne.
  unfold utf8.DecodeRuneInString in H.
  remember (Z.of_nat (String.length (String c0 t0))) as n eqn:Hn. clear Hn.
  assert (Hbad : unicode.IsSpace utf8.RuneError = false) by reflexivity.
  destruct (first_cases (byte_val c0)) as [[Hlt E] | [E | [Hge E]]].
  - rewrite E in H. cbn in H. injection H as <- <-.
    exists (String c0 EmptyString). simpl. repeat split; auto.
    unfold trimmable. rewrite Hsp. now rewrite orb_true_r.
  - rewrite E in H. cbn in H. injection H as <- <-. congruence.
  - simpl in E.
    assert (T0 : trimmable c0 = true) by (apply trimmable_high; lia).
    destruct E as [E|[E|[E|[E|[E|[E|[E|[]]]]]]]]; rewrite <- E in H; cbn in H;
      repeat dec_step H; injection H as <- <-; try congruence;
      bool_to_prop; unfold utf8.locb, utf8.hicb in *;
      match goal with
      | |- exists pre, String ?a (String ?b (String ?c (String ?d ?t)))
                       = pre ++ drop 4 _ /\ _ =>
        exists (String a (String b (String c (String d EmptyString))))
      | |- exists pre, String ?a (String ?b (String ?c ?t))
                       = pre ++ drop 3 _ /\ _ =>
        exists (String a (String b (String c EmptyString)))
      | |- exists pre, String ?a (String ?b ?t) = pre ++ drop 2 _ /\ _ =>
        exists (String a (String b EmptyString))
      end;
      simpl; rewrite T0, ?trimmable_high by lia;
      repeat split; first [reflexivity | lia].
Qed.

Lemma trimLeftLoop_split fuel s :
  exists pre, s = pre ++ strings.trimLeftLoop unicode.IsSpace fuel s
              /\ all_bytes trimmable pre = true.
Proof.
  revert s. induction fuel as [|k IH]; intros s.
  - now exists EmptyString.
  - destruct s as [|c t]; [now exists EmptyString|].
    cbn [strings.trimLeftLoop].
    destruct (utf8.DecodeRuneInString (String c t)) as [r size] eqn:D.
    destruct (unicode.IsSpace r) eqn:Sp; [|now exists EmptyString].
    destruct (Decode_trimmable _ _ _ D) as (pre1 & E1 & _ & _ & A1);
      [discriminate | assumption |].
    destruct (IH (drop size (String c t))) as (pre2 & E2 & A2).
    exists (pre1 ++ pre2). split.
    + rewrite append_assoc, <- E2. exact E1.
    + now rewrite all_bytes_append, A1, A2.
Qed.

Lemma substring_split n s :
  (n <= String.length s)%nat ->
  s = substring 0 n s ++ substring n (String.length s - n) s.
Proof.
  revert n. induction s as [|c s IH]; intros n Hn.
  - destruct n; reflexivity.
  - destruct n as [|n].
    + simpl. f_equal.
      specialize (IH 0%nat ltac:(lia)). simpl in IH.
      rewrite Nat.sub_0_r in IH.
      destruct s; simpl in *; [reflexivity|]. exact IH.
    + simpl in *. f_equal. apply IH. lia.
Qed.

Lemma length_substring n m s :
  (n + m <= String.length s)%nat -> String.length (substring n m s) = m.
Proof.
  revert n m. induction s as [|c s IH]; intros n m H; simpl in *.
  - destruct n, m; simpl in *; try lia; reflexivity.
  - destruct n as [|n].
    + destruct m as [|m]; simpl; [reflexivity|]. f_equal. apply IH. lia.
    + apply IH. lia.
Qed.

Lemma drop_all s : drop (String.length s) s = EmptyString.
Proof. induction s; simpl; auto. Qed.

Lemma drop_append pre s : drop (String.length pre) (pre ++ s) = s.
Proof. induction pre; simpl; auto. Qed.

Lemma append_inj_length (a b a' b' : string) :
  a ++ b = a' ++ b' -> String.length a = String.length a' ->
  a = a' /\ b = b'.
Proof.
  revert a'. induction a as [|x a IH]; intros [|y a'] E L; simpl in *;
    try discriminate; [now split|].
  injection E as -> E. injection L as L.
  destruct (IH _ E L) as [-> ->]. now split.
Qed.

Lemma get_last pre c :
  String.get (String.length pre) (pre ++ String c EmptyString) = Some c.
Proof. induction pre as [|x pre IH]; simpl; auto. Qed.

Lemma unsnoc s :
  s <> EmptyString -> exists pre c, s = pre ++ String c EmptyString.
Proof.
  induction s as [|c s IH]; [congruence|]. intros _.
  destruct s as [|c' s'].
  - now exists EmptyString, c.
  - destruct IH as (pre & d & E); [discriminate|].
    exists (String c pre), d. simpl. now rewrite <- E.
Qed.

(** The last byte of a non-empty string. *)
Lemma last_byte s :
  s <> EmptyString ->
  exists pre c, s = pre ++ String c EmptyString
                /\ byteAt s (Z.of_nat (String.length s) - 1) = byte_val c.
Proof.
  intros Hne. destruct (unsnoc s Hne) as (pre & c & E).
  exists pre, c. split; [assumption|].
  subst s. unfold byteAt. rewrite length_append. simpl String.length.
  destruct (Z.of_nat (String.length pre + 1) - 1 <? 0) eqn:E1;
    [apply Z.ltb_lt in E1; lia|].
  replace (Z.to_nat (Z.of_nat (String.length pre + 1) - 1))
    with (String.length pre) by lia.
  now rewrite get_last.
Qed.

Lemma DecodeLast_trimmable s r size :
  utf8.DecodeLastRuneInString s = (r, size) ->
  s <> EmptyString ->
  unicode.IsSpace r = true ->
  exists pre suf, s = pre ++ suf /\ String.length suf = size
                  /\ (1 <= size)%nat /\ all_bytes trimmable suf = true
                  /\ substring 0 (String.length s - size) s = pre.
Proof.
  intros H Hne Hsp.
  assert (Hbad : unicode.IsSpace utf8.RuneError = false) by reflexivity.
  unfold utf8.DecodeLastRuneInString in H.
  assert (Hlen : (1 <= String.length s)%nat) by (destruct s; simpl; [congruence | lia]).
  destruct (Z.of_nat (String.length s) =? 0) eqn:E0; [apply Z.eqb_eq in E0; lia|].
  destruct (last_byte s Hne) as (pre & c & Es & Lb).
  rewrite Lb in H.
  destruct (byte_val c <? utf8.RuneSelf) eqn:Ea.
  - injection H as <- <-.
    exists pre, (String c EmptyString). repeat split; auto.
    + simpl. unfold trimmable. now rewrite Hsp, orb_true_r.
    + pose proof (substring_split (String.length s - 1) s ltac:(lia)) as Sp.
      assert (L1 : String.length (substring 0 (String.length s - 1) s)
                   = String.length pre).
      { rewrite length_substring by lia.
        rewrite Es, length_append. simpl. lia. }
      rewrite Es in Sp at 1. symmetry in Sp.
      now destruct (append_inj_length _ _ _ _ Sp L1).
  - set (start0 := utf8.scanBack 4 s (Z.of_nat (String.length s) - 1 - 1)
                     (Z.max (Z.of_nat (String.length s) - utf8.UTFMax) 0)) in H.
    set (start := if start0 <? 0 then 0 else start0) in H.
    assert (Hs0 : 0 <= start) by (unfold start; destruct (start0 <? 0) eqn:?; lia).
    clearbody start. clear start0.
    destruct (utf8.DecodeRuneInString _) as [r' size'] eqn:D in H.
    destruct (start + Z.of_nat size' =? Z.of_nat (String.length s)) eqn:Ee;
      simpl in H; injection H as <- <-; [|congruence].
    apply Z.eqb_eq in Ee.
    set (suf := substring (Z.to_nat start)
                  (Z.to_nat (Z.of_nat (String.length s) - start)) s) in D.
    assert (Hst : Z.to_nat start = (String.length s - size')%nat) by lia.
    assert (Hsz : Z.to_nat (Z.of_nat (String.length s) - start) = size') by lia.
    assert (Lsuf : String.length suf = size').
    { unfold suf. rewrite length_substring; lia. }
    assert (Nsuf : suf <> EmptyString).
    { intros E. rewrite E in D. simpl in D. injection D as <- <-. congruence. }
    destruct (Decode_trimmable _ _ _ D Nsuf Hsp) as (p & Ep & Lp & L1 & Ap).
    assert (drop size' suf = EmptyString).
    { rewrite <- Lsuf. apply drop_all. }
    rewrite H, append_nil_r in Ep. subst p.
    exists (substring 0 (String.length s - size') s), suf.
    repeat split; auto.
    pose proof (substring_split (String.length s - size') s ltac:(lia)) as Sp.
    unfold suf. rewrite Hst, Hsz.
    replace (String.length s - (String.length s - size'))%nat with size' in Sp by lia.
    exact Sp.
Qed.

Lemma trimRightLoop_empty fuel s :
  (String.length s <= fuel)%nat ->
  strings.trimRightLoop unicode.IsSpace fuel s = EmptyString ->
  all_bytes trimmable s = true.
Proof.
  revert s. induction fuel as [|k IH]; intros s Hl H.
  - destruct s; simpl in *; [reflexivity | lia].
  - destruct s as [|c t]; [reflexivity|].
    cbn [strings.trimRightLoop] in H.
    destruct (utf8.DecodeLastRuneInString (String c t)) as [r size] eqn:D.
    destruct (unicode.IsSpace r) eqn:Sp; [|discriminate].
    destruct (DecodeLast_trimmable _ _ _ D) as (pre & suf & Es & Ls & L1 & As & Ep);
      [discriminate | assumption |].
    rewrite Ep in H. rewrite Es, all_bytes_append, As, andb_true_r.
    apply IH; [|assumption].
    assert (String.length (String c t) = (String.length pre + String.length suf)%nat)
      by (rewrite Es at 1; apply length_append).
    lia.
Qed.

(** A string that trims to nothing consists of removable bytes only. *)
Lemma TrimSpace_empty s :
  strings.TrimSpace s = EmptyString -> all_bytes trimmable s = true.
Proof.
  unfold strings.TrimSpace, strings.TrimRightFunc, strings.TrimLeftFunc.
  intros H.
  destruct (trimLeftLoop_split (String.length s) s) as (pre & E & A).
  rewrite E at 1. rewrite all_bytes_append, A. simpl.
  eapply trimRightLoop_empty; [|exact H]. lia.
Qed.

(** ** Cutting and splitting *)

Lemma cut_none sep s : countByte sep s = 0%nat -> strings.cut sep s = None.
Proof.
  induction s as [|c s IH]; simpl; [reflexivity|].
  destruct (Ascii.eqb c sep); [discriminate|]. intros H.
  now rewrite IH.
Qed.

Lemma cut_some sep s a b :
  strings.cut sep s = Some (a, b) ->
  s = a ++ String sep b /\ countByte sep a = 0%nat
  /\ countByte sep s = S (countByte sep b).
Proof.
  revert a. induction s as [|c s IH]; simpl; [discriminate|]. intros a.
  destruct (Ascii.eqb c sep) eqn:E.
  - apply Ascii.eqb_eq in E. subst c. intros [= <- <-]. now repeat split.
  - destruct (strings.cut sep s) as [[a' b']|]; [|discriminate].
    intros [= <- <-]. destruct (IH a' eq_refl) as (-> & C1 & C2).
    simpl. rewrite E. now repeat split.
Qed.

Lemma cut_append sep a b :
  countByte sep a = 0%nat -> strings.cut sep (a ++ String sep b) = Some (a, b).
Proof.
  induction a as [|c a IH]; simpl.
  - now rewrite Ascii.eqb_refl.
  - destruct (Ascii.eqb c sep); [discriminate|]. intros H. now rewrite IH.
Qed.

Lemma cut_count sep s :
  match strings.cut sep s with
  | None => countByte sep s = 0%nat
  | Some (a, b) => countByte sep s = S (countByte sep b)
  end.
Proof.
  destruct (strings.cut sep s) as [[a b]|] eqn:E.
  - now destruct (cut_some _ _ _ _ E) as (_ & _ & ?).
  - induction s as [|c s IH]; simpl in *; [reflexivity|].
    destruct (Ascii.eqb c sep); [discriminate|].
    destruct (strings.cut sep s) as [[a b]|]; [discriminate|]. now apply IH.
Qed.

Lemma SplitN_3 line :
  strings.SplitN line colon 3 = strings.splitLoop 2 colon line.
Proof. reflexivity. Qed.

(** Splitting at the first two colons gives three fields exactly for the
    lines with at least two colons. *)
Lemma SplitN_3_length line :
  (List.length (strings.SplitN line colon 3) <? 3)%nat = negb (wellFormed line).
Proof.
  rewrite SplitN_3. unfold wellFormed. simpl.
  pose proof (cut_count colon line) as C1.
  destruct (strings.cut colon line) as [[a r]|].
  - pose proof (cut_count colon r) as C2.
    destruct (strings.cut colon r) as [[b c]|]; rewrite C1, C2; reflexivity.
  - rewrite C1. reflexivity.
Qed.

Lemma SplitN_3_fields a b c :
  countByte colon a = 0%nat -> countByte colon b = 0%nat ->
  strings.SplitN (a ++ String colon (b ++ String colon c)) colon 3 = [a; b; c].
Proof.
  intros Ha Hb. rewrite SplitN_3. simpl.
  rewrite (cut_append _ _ _ Ha), (cut_append _ _ _ Hb). reflexivity.
Qed.

Lemma wellFormed_fields line :
  wellFormed line = true <->
  exists a b c, line = a ++ String colon (b ++ String colon c)
                /\ countByte colon a = 0%nat /\ countByte colon b = 0%nat.
Proof.
  unfold wellFormed. split.
  - intros H. apply Nat.leb_le in H.
    pose proof (cut_count colon line) as C1.
    destruct (strings.cut colon line) as [[a r]|] eqn:E1; [|lia].
    pose proof (cut_count colon r) as C2.
    destruct (strings.cut colon r) as [[b c]|] eqn:E2; [|lia].
    destruct (cut_some _ _ _ _ E1) as (-> & Ha & _).
    destruct (cut_some _ _ _ _ E2) as (-> & Hb & _).
    now exists a, b, c.
  - intros (a & b & c & -> & Ha & Hb). apply Nat.leb_le.
    assert (forall x y, countByte colon (x ++ String colon y)
                        = S (countByte colon x + countByte colon y)) as K.
    { intros x y. induction x as [|h x IH]; simpl; [reflexivity|].
      rewrite IH. destruct (Ascii.eqb h colon); lia. }
    rewrite !K. lia.
Qed.

(** Bytes that survive trimming are absent from a string that trims to
    nothing. *)
Lemma all_bytes_count p c s :
  all_bytes p s = true -> p c = false -> countByte c s = 0%nat.
Proof.
  intros A Hc. induction s as [|x s IH]; simpl in *; [reflexivity|].
  apply andb_true_iff in A. destruct A as [Px A].
  destruct (Ascii.eqb x c) eqn:E.
  - apply Ascii.eqb_eq in E. congruence.
  - now rewrite IH.
Qed.

Lemma blank_not_wellFormed line :
  strings.TrimSpace line = EmptyString -> wellFormed line = false.
Proof.
  intros H. apply TrimSpace_empty in H.
  unfold wellFormed.
  now rewrite (all_bytes_count trimmable colon line H eq_refl).
Qed.

Lemma accepted_wellFormed line : accepted line = wellFormed line.
Proof.
  unfold accepted. rewrite SplitN_3_length, negb_involutive.
  destruct (String.eqb_spec (strings.TrimSpace line) "") as [E|E]; simpl.
  - now rewrite blank_not_wellFormed.
  - reflexivity.
Qed.

Lemma parseLines_acc lines results :
  parseLines lines results
  = (results ++ map recordOf (filter accepted lines))%list.
Proof.
  revert results. induction lines as [|line lines IH]; intros results.
  - simpl. now rewrite app_nil_r.
  - cbn [parseLines filter]. unfold accepted at 1.
    destruct (strings.TrimSpace line =? "")%string; simpl; [apply IH|].
    destruct (List.length (strings.SplitN line colon 3) <? 3)%nat; simpl;
      [apply IH|].
    rewrite IH, <- app_assoc. reflexivity.
Qed.

Lemma parseOutput_filter output :
  parseOutput output
  = map recordOf (filter wellFormed (strings.Split output newline)).
Proof.
  unfold parseOutput. rewrite parseLines_acc. simpl. f_equal.
  apply filter_ext. exact accepted_wellFormed.
Qed.

Lemma prefix_head c t s :
  String.prefix (String c t) s = true -> exists s', s = String c s'.
Proof.
  destruct s as [|x s]; simpl; [discriminate|].
  destruct (ascii_dec c x) as [->|]; [|discriminate]. now exists s.
Qed.

Lemma Contains_head c t s :
  strings.Contains s (String c t) = true -> (1 <= countByte c s)%nat.
Proof.
  induction s as [|x s IH]; simpl; [discriminate|].
  destruct (ascii_dec c x) as [->|N].
  - rewrite Ascii.eqb_refl. lia.
  - simpl. intros H. specialize (IH H). lia.
Qed.

(** White-space-only output cannot contain a word. *)
Lemma blank_not_Contains s c t :
  strings.TrimSpace s = EmptyString -> trimmable c = false ->
  strings.Contains s (String c t) = false.
Proof.
  intros H Hc. apply TrimSpace_empty in H.
  pose proof (all_bytes_count _ _ _ H Hc) as Z0.
  destruct (strings.Contains s (String c t)) eqn:E; [|reflexivity].
  apply Contains_head in E. lia.
Qed.

(** ** Scanning a decimal numeral *)

Lemma digit_facts c :
  strconv.isDigit c = true ->
  byte_val c < 0x80
  /\ fmt.indexRune "+-" (byte_val c) = false
  /\ fmt.indexRune "0123456789" (byte_val c) = true
  /\ fmt.isSpace (byte_val c) = false
  /\ (byte_val c =? fmt.eof) = false
  /\ (byte_val c =? 13) = false
  /\ (byte_val c =? 10) = false
  /\ (Ascii.eqb c "+" || Ascii.eqb c "-") = false
  /\ ascii_of_N (Z.to_N (byte_val c)) = c.
Proof.
  destruct c as [[] [] [] [] [] [] [] []]; intros H;
    try (vm_compute in H; discriminate H);
    vm_compute; repeat split; congruence.
Qed.

Lemma Decode_ascii c t :
  byte_val c < 0x80 ->
  utf8.DecodeRuneInString (String c t) = (byte_val c, 1%nat).
Proof.
  intros H. unfold utf8.DecodeRuneInString, utf8.first.
  apply Z.ltb_lt in H. rewrite H. reflexivity.
Qed.

Lemma getRune_digit c t k b :
  strconv.isDigit c = true -> k < fmt.hugeWid ->
  fmt.getRune {| fmt.rest := String c t; fmt.count := k; fmt.buf := b |}
  = (byte_val c, {| fmt.rest := t; fmt.count := k + 1; fmt.buf := b |}).
Proof.
  intros D Hk. unfold fmt.getRune. cbn [fmt.rest fmt.count fmt.buf].
  apply Z.leb_gt in Hk. rewrite Hk.
  destruct (digit_facts c D) as (A & _).
  rewrite (Decode_ascii c t A). reflexivity.
Qed.

Lemma acceptLoop_digits t k b :
  all_bytes strconv.isDigit t = true ->
  k + Z.of_nat (String.length t) <= fmt.hugeWid ->
  fmt.buf (fmt.acceptLoop (String.length t)
             {| fmt.rest := t; fmt.count := k; fmt.buf := b |} "0123456789")
  = b ++ t.
Proof.
  revert k b. induction t as [|c t IH]; intros k b A Hk.
  - simpl. now rewrite append_nil_r.
  - simpl in A. apply andb_true_iff in A. destruct A as [D A].
    cbn [String.length fmt.acceptLoop]. unfold fmt.accept.
    rewrite getRune_digit by (auto; simpl String.length in Hk; lia).
    destruct (digit_facts c D) as (_ & _ & I & _ & E & _ & _ & _ & R).
    rewrite E, I, R. cbn [fmt.rest fmt.count fmt.buf].
    rewrite IH by (auto; simpl String.length in Hk; lia).
    rewrite append_assoc. reflexivity.
Qed.

(** A non-empty run of decimal digits whose value fits [int64] scans as
    that value. *)
Lemma Sscanf_d_numeral s v :
  s <> EmptyString ->
  all_bytes strconv.isDigit s = true ->
  Z.of_nat (String.length s) < fmt.hugeWid ->
  strconv.digitsValue 0 s = Some v ->
  v < 2^63 ->
  fmt.Sscanf_d s = Some v.
Proof.
  intros Hne A Hl V Hv.
  destruct s as [|c t]; [congruence|]. clear Hne.
  pose proof A as A'. simpl in A'. apply andb_true_iff in A'.
  destruct A' as [D At].
  destruct (digit_facts c D) as (Lt & Sg & I & Sp & E & E13 & E10 & Pm & R).
  assert (H0 : 0 < fmt.hugeWid) by reflexivity.
  assert (Skip : forall n b,
             fmt.SkipSpace (S n)
               {| fmt.rest := String c t; fmt.count := 0; fmt.buf := b |}
             = Some {| fmt.rest := String c t; fmt.count := 0; fmt.buf := b |}).
  { intros n b. cbn [fmt.SkipSpace]. rewrite getRune_digit by auto.
    rewrite E, E13, E10, Sp. reflexivity. }
  unfold fmt.Sscanf_d. rewrite Skip. cbn [fmt.rest fmt.count].
  unfold fmt.scanInt. cbn [fmt.rest]. rewrite Skip.
  unfold fmt.notEOF at 1. rewrite getRune_digit by auto. rewrite E.
  unfold fmt.accept at 1. rewrite getRune_digit by auto. rewrite E, Sg.
  unfold fmt.scanNumber, fmt.notEOF. rewrite getRune_digit by auto. rewrite E.
  unfold fmt.accept at 1. rewrite getRune_digit by auto. rewrite E, I, R.
  cbn [negb fmt.rest fmt.count fmt.buf].
  rewrite acceptLoop_digits
    by (auto; simpl String.length in Hl; lia).
  cbn [append].
  unfold strconv.ParseInt. rewrite Pm.
  replace (Ascii.eqb c "-") with false
    by (symmetry; apply orb_false_elim in Pm; tauto).
  rewrite V.
  destruct (2 ^ 63 <=? v) eqn:Le; [apply Z.leb_le in Le; lia | reflexivity].
Qed.

Lemma positiveNumeral_parses s :
  positiveNumeral s = true -> parsesPositive s = true.
Proof.
  unfold positiveNumeral, parsesPositive. intros H.
  repeat (apply andb_true_iff in H; destruct H as [H ?]).
  destruct (strconv.digitsValue 0 s) as [v|] eqn:V; [|discriminate].
  repeat match goal with
         | K : (_ && _) = true |- _ => apply andb_true_iff in K; destruct K
         end.
  bool_to_prop.
  rewrite (Sscanf_d_numeral s v); auto.
  - now apply Z.ltb_lt.
  - intros ->. discriminate.
Qed.

(** ** The scanner against the integer at the start of a text *)

Lemma lor_ge_l a b k :
  0 <= a -> 0 <= b -> 0 <= k -> 2^k <= a -> 2^k <= Z.lor a b.
Proof.
  intros Ha Hb Hk H.
  assert (P : 0 < 2^k) by (apply Z.pow_pos_nonneg; lia).
  assert (N : 0 <= Z.lor a b) by (apply Z.lor_nonneg; split; assumption).
  destruct (Z.eq_dec (Z.lor a b) 0) as [E|E].
  - apply Z.lor_eq_0_l in E. lia.
  - destruct (Z.lt_ge_cases (Z.lor a b) (2^k)) as [L|L]; [|assumption].
    apply Z.log2_lt_pow2 in L; [|lia].
    rewrite Z.log2_lor in L by assumption.
    assert (k <= Z.log2 a) by (apply Z.log2_le_pow2; lia).
    lia.
Qed.

Lemma lor_ge_r a b k :
  0 <= a -> 0 <= b -> 0 <= k -> 2^k <= b -> 2^k <= Z.lor a b.
Proof. intros. rewrite Z.lor_comm. now apply lor_ge_l. Qed.

(** The masked bits of a byte. *)
Lemma land_byte_bounds c :
  0 <= Z.land (byte_val c) utf8.mask2
  /\ 0 <= Z.land (byte_val c) utf8.mask3
  /\ 0 <= Z.land (byte_val c) utf8.mask4
  /\ 0 <= Z.land (byte_val c) utf8.maskx
  /\ (0xC2 <= byte_val c -> 2 <= Z.land (byte_val c) utf8.mask2
                                 \/ 0xE0 <= byte_val c)
  /\ (0xE1 <= byte_val c -> 1 <= Z.land (byte_val c) utf8.mask3
                                 \/ 0xF0 <= byte_val c)
  /\ (0xF1 <= byte_val c -> 1 <= Z.land (byte_val c) utf8.mask4
                                 \/ 0xF8 <= byte_val c)
  /\ (0xA0 <= byte_val c -> 0x20 <= Z.land (byte_val c) utf8.maskx
                                 \/ 0xC0 <= byte_val c)
  /\ (0x90 <= byte_val c -> 0x10 <= Z.land (byte_val c) utf8.maskx
                                 \/ 0xC0 <= byte_val c).
Proof.
  destruct c as [[] [] [] [] [] [] [] []];
    cbv [byte_val N_of_ascii N_of_digits Z.of_N utf8.mask2 utf8.mask3
         utf8.mask4 utf8.maskx];
    simpl; repeat split; intros; lia.
Qed.

Lemma first_ranges b :
  0 <= b < 256 ->
  (b < 0x80 /\ utf8.first b = utf8.as_)
  \/ (0x80 <= b /\ utf8.first b = utf8.xx)
  \/ (0xC2 <= b < 0xE0 /\ utf8.first b = utf8.s1)
  \/ (b = 0xE0 /\ utf8.first b = utf8.s2)
  \/ (0xE1 <= b <= 0xEF /\ (utf8.first b = utf8.s3 \/ utf8.first b = utf8.s4))
  \/ (b = 0xF0 /\ utf8.first b = utf8.s5)
  \/ (0xF1 <= b <= 0xF4 /\ (utf8.first b = utf8.s6 \/ utf8.first b = utf8.s7)).
Proof.
  intros R. unfold utf8.first.
  repeat match goal with
         | |- context [if ?c then _ else _] =>
           let E := fresh "E" in destruct c eqn:E
         end;
  bool_to_prop;
  first [ left; split; [lia | reflexivity]
        | right; left; split; [lia | reflexivity]
        | right; right; left; split; [lia | reflexivity]
        | right; right; right; left; split; [lia | reflexivity]
        | right; right; right; right; left; split; [lia | tauto]
        | right; right; right; right; right; left; split; [lia | reflexivity]
        | right; right; right; right; right; right; split; [lia | tauto] ].
Qed.

Ltac nonneg_bits :=
  repeat first [ apply Z.lor_nonneg; split
               | apply Z.shiftl_nonneg
               | lia ].

Ltac high_rune :=
  first [ lia
        | apply (lor_ge_l _ _ 7); [nonneg_bits | nonneg_bits | lia | high_rune]
        | apply (lor_ge_r _ _ 7); [nonneg_bits | nonneg_bits | lia | high_rune]
        | rewrite Z.shiftl_mul_pow2 by lia;
          change (2 ^ 6) with 64; change (2 ^ 12) with 4096;
          change (2 ^ 18) with 262144; change (2 ^ 7) with 128; lia ].

(** The first rune of a text is its first byte when that is ASCII, and a
    rune of at least [0x80] otherwise. *)
Lemma Decode_first_byte c t r size :
  utf8.DecodeRuneInString (String c t) = (r, size) ->
  0 <= r
  /\ (1 <= size <= S (String.length t))%nat
  /\ ((byte_val c < 0x80 /\ r = byte_val c /\ size = 1%nat)
      \/ (0x80 <= byte_val c /\ 0x80 <= r)).
Proof.
  intros H.
  unfold utf8.DecodeRuneInString in H.
  remember (Z.of_nat (String.length (String c t))) as n eqn:Hn. clear Hn.
  pose proof (byte_val_range c) as R0.
  pose proof (land_byte_bounds c) as (M2 & M3 & M4 & Mx & L2 & L3 & L4 & _).
  assert (RE : utf8.RuneError = 65533) by reflexivity.
  destruct (first_ranges (byte_val c) R0)
    as [[Hlt E] | [[Hge E] | [[Hr E] | [[Hr E] | [[Hr [E|E]] | [[Hr E] | [Hr [E|E]]]]]]]];
    rewrite E in H;
    repeat match type of H with
           | context [Z.land ?x 7] =>
             let v := eval vm_compute in (Z.land x 7) in
             change (Z.land x 7) with v in H
           | context [utf8.acceptRanges ?x] =>
             let v := eval vm_compute in (utf8.acceptRanges x) in
             change (utf8.acceptRanges x) with v in H
           end;
    cbn -[Z.shiftl Z.lor Z.land] in H;
    repeat dec_step H; apply pair_equal_spec in H as [<- <-];
    bool_to_prop; unfold utf8.locb, utf8.hicb in *;
    repeat match goal with
           | |- context [byte_val ?x] =>
             lazymatch goal with
             | _ : 0 <= Z.land (byte_val x) utf8.maskx |- _ => fail
             | _ => pose proof (land_byte_bounds x)
                      as (_ & _ & _ & ? & _ & _ & _ & ? & ?)
             end
           end;
    (split; [rewrite ?RE; nonneg_bits
            |split; [simpl String.length; lia
                    |first [ left; repeat split; lia
                           | right; split; [lia | rewrite ?RE; high_rune] ]]]).
Qed.

Lemma length_drop n s : String.length (drop n s) = (String.length s - n)%nat.
Proof.
  revert s. induction n as [|n IH]; intros s.
  - simpl. lia.
  - destruct s as [|c t]; simpl; [reflexivity | apply IH].
Qed.

Lemma indexRune_high ok r :
  all_bytes (fun c => byte_val c <? 0x80) ok = true ->
  0x80 <= r -> fmt.indexRune ok r = false.
Proof.
  intros A H. induction ok as [|c t IH]; [reflexivity|].
  simpl in A. apply andb_true_iff in A. destruct A as [Hc A].
  apply Z.ltb_lt in Hc. cbn [fmt.indexRune]. rewrite (IH A).
  apply orb_false_iff. split; [apply Z.eqb_neq; lia | reflexivity].
Qed.

(** The bytes of the sign set and of the digit set. *)
Lemma byte_class c :
  ((byte_val c <? 0x80) && fmt.indexRune "+-" (byte_val c)
   = Ascii.eqb c "+" || Ascii.eqb c "-")
  /\ ((byte_val c <? 0x80) && fmt.indexRune "0123456789" (byte_val c)
      = strconv.isDigit c)
  /\ ascii_of_N (Z.to_N (byte_val c)) = c
  /\ (strconv.isDigit c = true ->
      Ascii.eqb c "+" = false /\ Ascii.eqb c "-" = false).
Proof.
  destruct c as [[] [] [] [] [] [] [] []];
    vm_compute; repeat split; congruence.
Qed.

Lemma getRune_nil k b :
  fmt.getRune {| fmt.rest := EmptyString; fmt.count := k; fmt.buf := b |}
  = (fmt.eof, {| fmt.rest := EmptyString; fmt.count := k; fmt.buf := b |}).
Proof. reflexivity. Qed.

Lemma getRune_cons c t k b :
  k < fmt.hugeWid ->
  fmt.getRune {| fmt.rest := String c t; fmt.count := k; fmt.buf := b |}
  = (fst (utf8.DecodeRuneInString (String c t)),
     {| fmt.rest := drop (snd (utf8.DecodeRuneInString (String c t)))
                         (String c t);
        fmt.count := k + 1; fmt.buf := b |}).
Proof.
  intros Hk. unfold fmt.getRune. cbn [fmt.rest fmt.count fmt.buf].
  apply Z.leb_gt in Hk. rewrite Hk.
  now destruct (utf8.DecodeRuneInString (String c t)).
Qed.

Lemma notEOF_nil k b :
  fmt.notEOF {| fmt.rest := EmptyString; fmt.count := k; fmt.buf := b |}
  = None.
Proof. reflexivity. Qed.

Lemma notEOF_cons c t k b :
  k < fmt.hugeWid ->
  fmt.notEOF {| fmt.rest := String c t; fmt.count := k; fmt.buf := b |}
  = Some {| fmt.rest := String c t; fmt.count := k; fmt.buf := b |}.
Proof.
  intros Hk. unfold fmt.notEOF. rewrite getRune_cons by assumption.
  destruct (utf8.DecodeRuneInString (String c t)) as [r size] eqn:D.
  apply Decode_first_byte in D. destruct D as (Hr & _).
  cbn [fst]. replace (r =? fmt.eof) with false; [reflexivity|].
  symmetry. apply Z.eqb_neq. unfold fmt.eof. lia.
Qed.

(** [accept] on a set of ASCII bytes looks at one byte only. *)
Lemma accept_cons ok c t k b :
  all_bytes (fun c => byte_val c <? 0x80) ok = true ->
  k < fmt.hugeWid ->
  fmt.accept {| fmt.rest := String c t; fmt.count := k; fmt.buf := b |} ok
  = if (byte_val c <? 0x80) && fmt.indexRune ok (byte_val c)
    then (true, {| fmt.rest := t; fmt.count := k + 1;
                   fmt.buf := b ++ String c EmptyString |})
    else (false, {| fmt.rest := String c t; fmt.count := k; fmt.buf := b |}).
Proof.
  intros A Hk. unfold fmt.accept. rewrite getRune_cons by assumption.
  destruct (utf8.DecodeRuneInString (String c t)) as [r size] eqn:D.
  apply Decode_first_byte in D.
  destruct D as (Hr & _ & [(Lt & -> & ->) | (Ge & Hi)]);
    cbn [fst snd fmt.rest fmt.count fmt.buf].
  - replace (byte_val c =? fmt.eof) with false
      by (symmetry; apply Z.eqb_neq; unfold fmt.eof; lia).
    apply Z.ltb_lt in Lt. rewrite Lt. cbn [andb].
    destruct (byte_class c) as (_ & _ & -> & _).
    destruct (fmt.indexRune ok (byte_val c)); reflexivity.
  - replace (r =? fmt.eof) with false
      by (symmetry; apply Z.eqb_neq; unfold fmt.eof; lia).
    rewrite (indexRune_high ok r A Hi).
    apply Z.ltb_ge in Ge. rewrite Ge. reflexivity.
Qed.

Lemma accept_nil ok k b :
  fmt.accept {| fmt.rest := EmptyString; fmt.count := k; fmt.buf := b |} ok
  = (false, {| fmt.rest := EmptyString; fmt.count := k; fmt.buf := b |}).
Proof. reflexivity. Qed.

Lemma SkipSpace_S k s :
  fmt.SkipSpace (S k) s
  = let '(r, s') := fmt.getRune s in
    if r =? fmt.eof then Some s
    else if (r =? 13) && fmt.peek s' nl then fmt.SkipSpace k s'
    else if r =? 10 then None
    else if negb (fmt.isSpace r) then Some s
    else fmt.SkipSpace k s'.
Proof. reflexivity. Qed.

Lemma skipBlanks_nil m : skipBlanks m EmptyString = Some EmptyString.
Proof. now destruct m. Qed.

(** [SkipSpace] leaves the scanner at the text [skipBlanks] gives, and
    fails where it gives none. *)
Lemma SkipSpace_skipBlanks n : forall s k b,
  (String.length s <= n)%nat ->
  k + Z.of_nat (String.length s) < fmt.hugeWid ->
  match skipBlanks n s with
  | None =>
    fmt.SkipSpace (S n) {| fmt.rest := s; fmt.count := k; fmt.buf := b |}
    = None
  | Some body =>
    exists k',
      fmt.SkipSpace (S n) {| fmt.rest := s; fmt.count := k; fmt.buf := b |}
      = Some {| fmt.rest := body; fmt.count := k'; fmt.buf := b |}
      /\ k' + Z.of_nat (String.length body) < fmt.hugeWid
      /\ (forall m, skipBlanks m body = Some body)
  end.
Proof.
  induction n as [|n IH]; intros s k b Hl Hk.
  - destruct s as [|c t]; [|simpl in Hl; lia].
    cbn [skipBlanks]. exists k. repeat split; auto using skipBlanks_nil.
  - destruct s as [|c t].
    + cbn [skipBlanks]. exists k. repeat split; auto using skipBlanks_nil.
    + cbn [skipBlanks]. rewrite SkipSpace_S.
      simpl String.length in Hl, Hk.
      rewrite getRune_cons by lia.
      destruct (utf8.DecodeRuneInString (String c t)) as [r size] eqn:D.
      pose proof (Decode_first_byte _ _ _ _ D) as (Hr & Hs & _).
      cbn [fst snd].
      replace (r =? fmt.eof) with false
        by (symmetry; apply Z.eqb_neq; unfold fmt.eof; lia).
      assert (Next :
        match skipBlanks n (drop size (String c t)) with
        | None =>
          fmt.SkipSpace (S n)
            {| fmt.rest := drop size (String c t); fmt.count := k + 1;
               fmt.buf := b |} = None
        | Some body =>
          exists k',
            fmt.SkipSpace (S n)
              {| fmt.rest := drop size (String c t); fmt.count := k + 1;
                 fmt.buf := b |}
            = Some {| fmt.rest := body; fmt.count := k'; fmt.buf := b |}
            /\ k' + Z.of_nat (String.length body) < fmt.hugeWid
            /\ (forall m, skipBlanks m body = Some body)
        end).
      { apply IH; rewrite length_drop; simpl String.length; lia. }
      destruct ((r =? 13) && fmt.peek _ nl) eqn:P.
      * apply andb_true_iff in P. destruct P as [P _].
        apply Z.eqb_eq in P. subst r.
        change (13 =? 10) with false. change (fmt.isSpace 13) with true.
        exact Next.
      * destruct (r =? 10) eqn:E10; [reflexivity|].
        destruct (fmt.isSpace r) eqn:Sp; cbn [negb]; [exact Next|].
        exists k. repeat split; [simpl String.length; lia|].
        intros [|m]; [reflexivity|].
        cbn [skipBlanks]. now rewrite D, E10, Sp.
Qed.

Lemma acceptLoop_digitRun n : forall t k b,
  (String.length t <= n)%nat ->
  k + Z.of_nat (String.length t) < fmt.hugeWid ->
  fmt.buf (fmt.acceptLoop n
             {| fmt.rest := t; fmt.count := k; fmt.buf := b |} "0123456789")
  = b ++ digitRun t.
Proof.
  induction n as [|n IH]; intros t k b Hl Hk.
  - destruct t; [|simpl in Hl; lia]. simpl. now rewrite append_nil_r.
  - destruct t as [|c t].
    + simpl. now rewrite append_nil_r.
    + cbn [fmt.acceptLoop digitRun]. simpl String.length in Hl, Hk.
      rewrite accept_cons by (reflexivity || lia).
      destruct (byte_class c) as (_ & -> & _).
      destruct (strconv.isDigit c).
      * rewrite IH by lia. now rewrite append_assoc.
      * cbn [fmt.buf]. now rewrite append_nil_r.
Qed.

Lemma scanNumber_digitRun t k b :
  k + Z.of_nat (String.length t) < fmt.hugeWid ->
  match fmt.scanNumber
          {| fmt.rest := t; fmt.count := k; fmt.buf := b |} "0123456789" with
  | None => digitRun t = EmptyString
  | Some (tok, _) => digitRun t <> EmptyString /\ tok = b ++ digitRun t
  end.
Proof.
  intros Hk. unfold fmt.scanNumber. destruct t as [|c t].
  - rewrite notEOF_nil. reflexivity.
  - simpl String.length in Hk.
    rewrite notEOF_cons by lia. rewrite accept_cons by (reflexivity || lia).
    destruct (byte_class c) as (_ & -> & _). cbn [digitRun].
    destruct (strconv.isDigit c); cbn [negb]; [|reflexivity].
    cbn [fmt.rest]. split; [discriminate|].
    rewrite acceptLoop_digitRun by lia. now rewrite append_assoc.
Qed.

Lemma digitRun_value s : forall acc,
  0 <= acc ->
  strconv.digitsValue acc (digitRun s) = Some (numeralValue acc (digitRun s))
  /\ 0 <= numeralValue acc (digitRun s).
Proof.
  induction s as [|c t IH]; intros acc Ha; [simpl; auto|].
  cbn [digitRun]. destruct (strconv.isDigit c) eqn:D; [|simpl; auto].
  cbn [strconv.digitsValue numeralValue]. rewrite D.
  apply IH. unfold strconv.isDigit in D.
  apply andb_true_iff in D. destruct D as [D _]. apply Z.leb_le in D. lia.
Qed.

Lemma digitRun_head s :
  digitRun s <> EmptyString ->
  exists d ds, digitRun s = String d ds /\ strconv.isDigit d = true.
Proof.
  destruct s as [|c t]; [now intros []|]. cbn [digitRun].
  destruct (strconv.isDigit c) eqn:D; [|now intros []].
  intros _. now exists c, (digitRun t).
Qed.

(** [ParseInt] on a run of digits with or without a sign. *)
Lemma ParseInt_digitRun s :
  digitRun s <> EmptyString ->
  let inRange v := if (- 2^63 <=? v) && (v <? 2^63) then Some v else None in
  strconv.ParseInt (digitRun s) = inRange (numeralValue 0 (digitRun s))
  /\ strconv.ParseInt (String "+" (digitRun s))
     = inRange (numeralValue 0 (digitRun s))
  /\ strconv.ParseInt (String "-" (digitRun s))
     = inRange (- numeralValue 0 (digitRun s)).
Proof.
  intros Hne inRange. subst inRange.
  destruct (digitRun_value s 0 ltac:(lia)) as [V Pos].
  destruct (digitRun_head s Hne) as (d & ds & E & D).
  destruct (byte_class d) as (_ & _ & _ & Sg). destruct (Sg D) as [Sp Sm].
  revert V Pos. generalize (numeralValue 0 (digitRun s)). intros v V Pos.
  assert (P : (if 2 ^ 63 <=? v then None else Some v)
              = if (- 2 ^ 63 <=? v) && (v <? 2 ^ 63) then Some v else None).
  { destruct (2 ^ 63 <=? v) eqn:A, (- 2 ^ 63 <=? v) eqn:B,
             (v <? 2 ^ 63) eqn:C; bool_to_prop; try reflexivity; lia. }
  assert (N : (if 2 ^ 63 <? v then None else Some (- v))
              = if (- 2 ^ 63 <=? - v) && (- v <? 2 ^ 63)
                then Some (- v) else None).
  { destruct (2 ^ 63 <? v) eqn:A, (- 2 ^ 63 <=? - v) eqn:B,
             (- v <? 2 ^ 63) eqn:C; bool_to_prop; try reflexivity; lia. }
  repeat split.
  - unfold strconv.ParseInt. rewrite E in *. rewrite Sp, Sm. cbn [orb].
    rewrite V. exact P.
  - unfold strconv.ParseInt. rewrite E in *.
    change (Ascii.eqb "+" "-") with false.
    change (Ascii.eqb "+" "+") with true. cbn [orb]. rewrite V. exact P.
  - unfold strconv.ParseInt. rewrite E in *.
    change (Ascii.eqb "-" "-") with true.
    change (Ascii.eqb "-" "+") with false. cbn [orb]. rewrite V. exact N.
Qed.

(** The scanner of [%d] computes [decimalPrefix]. *)
Lemma Sscanf_d_decimalPrefix s :
  Z.of_nat (String.length s) < fmt.hugeWid ->
  fmt.Sscanf_d s = decimalPrefix s.
Proof.
  intros Hl. unfold fmt.Sscanf_d, decimalPrefix.
  pose proof (SkipSpace_skipBlanks (String.length s) s 0 EmptyString
                (le_n _) ltac:(lia)) as Sk.
  destruct (skipBlanks (String.length s) s) as [body|]; [|now rewrite Sk].
  destruct Sk as (k & -> & Hk & Idem).
  cbn [fmt.rest fmt.count]. unfold fmt.scanInt. cbn [fmt.rest].
  pose proof (SkipSpace_skipBlanks (String.length body) body k EmptyString
                (le_n _) Hk) as Sk.
  rewrite Idem in Sk. destruct Sk as (k' & -> & Hk' & _).
  destruct body as [|c t].
  { rewrite notEOF_nil. reflexivity. }
  simpl String.length in Hk'.
  rewrite notEOF_cons by lia. rewrite accept_cons by (reflexivity || lia).
  destruct (byte_class c) as (-> & _ & _ & Dg).
  destruct (Ascii.eqb c "+" || Ascii.eqb c "-") eqn:Sg.
  - pose proof (scanNumber_digitRun t (k' + 1) (String c EmptyString)
                  ltac:(lia)) as N.
    cbn [append].
    destruct (fmt.scanNumber _ "0123456789") as [[tok st]|].
    + destruct N as [Hne ->]. cbn [append].
      destruct (ParseInt_digitRun t Hne) as (_ & Pp & Pm).
      apply String.eqb_neq in Hne. rewrite Hne.
      destruct (Ascii.eqb_spec c "-") as [->|Nm].
      * rewrite Pm. clear Pp Pm. now destruct (_ && _).
      * assert (c = "+"%char) as ->.
        { destruct (Ascii.eqb_spec c "+"); [assumption | discriminate Sg]. }
        rewrite Pp. clear Pp Pm. now destruct (_ && _).
    + rewrite N. reflexivity.
  - apply orb_false_elim in Sg. destruct Sg as [_ Sm]. rewrite Sm.
    pose proof (scanNumber_digitRun (String c t) k' EmptyString
                  ltac:(simpl String.length; lia)) as N.
    destruct (fmt.scanNumber _ "0123456789") as [[tok st]|].
    + destruct N as [Hne ->]. cbn [append].
      destruct (ParseInt_digitRun (String c t) Hne) as (P0 & _).
      apply String.eqb_neq in Hne. rewrite Hne.
      rewrite P0. clear P0. now destruct (_ && _).
    + rewrite N. reflexivity.
Qed.

(** ** The records of an output *)

Lemma parseOutput_In output it :
  In it (parseOutput output) ->
  exists line a b c,
    In line (strings.Split output newline)
    /\ line = a ++ String colon (b ++ String colon c)
    /\ countByte colon a = 0%nat /\ countByte colon b = 0%nat
    /\ it = {| fileName := strings.TrimSpace a;
               lineNum := strings.TrimSpace b;
               content := strings.TrimSpace c;
               fullPath := strings.TrimSpace a |}.
Proof.
  rewrite parseOutput_filter. intros H.
  apply in_map_iff in H. destruct H as (line & <- & Hin).
  apply filter_In in Hin. destruct Hin as [Hin W].
  apply wellFormed_fields in W. destruct W as (a & b & c & -> & Ha & Hb).
  exists (a ++ String colon (b ++ String colon c)), a, b, c.
  repeat split; auto.
  unfold recordOf. now rewrite SplitN_3_fields.
Qed.

(** ** The dispatcher *)

Section DispatcherFacts.

Context {B : Bubbles}.

Lemma dispatch_app (m : model) msgs1 msgs2 :
  dispatch m (msgs1 ++ msgs2) = dispatch (dispatch m msgs1) msgs2.
Proof.
  revert m. induction msgs1 as [|msg msgs1 IH]; intros m; simpl; auto.
Qed.

End DispatcherFacts.

(** ** The claims *)

(** C1, as the code behaves: ripgrep exits with status 2 on a pattern it
    cannot compile and prints a diagnostic that is not blank and does not
    name a missing path; [executeRipgrep] nevertheless completes without an
    error, carrying the diagnostic's first line parsed as a match. *)
Theorem executeRipgrep_tool_failure_completes_as_success :
  strings.Contains regexErrorOutput "No such file or directory" = false
  /\ (strings.TrimSpace regexErrorOutput =? "")%string = false
  /\ runCmd (executeRipgrep "(" ".") regexErrorWorld
     = (searchFinishedMsg
          [{| fileName := "rg"; lineNum := "regex parse error";
              content := ""; fullPath := "rg" |}] None,
        [rgCommand "(" "."]).
Proof. vm_compute. repeat split. Qed.

Ltac eval_keys :=
  repeat match goal with
         | |- context [key.Matches ?k ?b] =>
           let v := eval vm_compute in (key.Matches k b) in
           change (key.Matches k b) with v
         end.

Ltac is_tab t :=
  match t with
  | searchTab => idtac
  | resultsTab => idtac
  | fileTab => idtac
  end.

Ltac eval_tabs :=
  repeat match goal with
         | |- context [Z.eqb ?a ?b] =>
           is_tab a; is_tab b;
           let v := eval vm_compute in (Z.eqb a b) in
           change (Z.eqb a b) with v
         end.

Ltac fields :=
  eval_tabs;
  cbn [orb andb negb
       tabs activeTab searchInput directoryInput searchResults fileViewer
       statusMessage statusMessageType width height showStatusBar ready help
       currentPath currentSearchPattern keymap
       set_activeTab set_searchInput set_directoryInput set_searchResults
       set_fileViewer set_status set_size set_help set_currentSearchPattern
       fst snd].

Section Focus.
Context {B : Bubbles}.

Lemma focus_initial getwd :
  focusView (initialModel getwd) = (keys, searchTab, true, false).
Proof.
  unfold focusView, initialModel. fields.
  now rewrite !Focused_SetWidth, Focused_Focus, Focused_New.
Qed.

Lemma focus_next_field m d :
  focusView m = (keys, searchTab, true, d) ->
  focusView (fst (Update m (KeyMsg "tab"))) = (keys, searchTab, false, true).
Proof.
  unfold focusView. intros [= K T S D].
  unfold Update, routeToTab. rewrite K, T, S. eval_keys.
  cbv beta iota zeta. fields.
  now rewrite ?K, ?T, ?Focused_Blur, ?Focused_Focus.
Qed.

Lemma focus_next_tab m t s d :
  focusView m = (keys, t, s, d) ->
  focusView (fst (Update m (KeyMsg "ctrl+t")))
  = (keys, Z.rem (int_add t 1) 3,
     if Z.rem (int_add t 1) 3 =? searchTab then true else s, d).
Proof.
  unfold focusView. intros [= K T S D].
  unfold Update. rewrite K. eval_keys. cbv beta iota zeta. fields.
  rewrite T.
  destruct (Z.rem (int_add t 1) 3 =? searchTab) eqn:E1; fields.
  - now rewrite K, Focused_Focus, D.
  - destruct (Z.rem (int_add t 1) 3 =? resultsTab); fields.
    + destruct (0 <? List.length (list_Items (searchResults m)))%nat; fields.
      * destruct (list_StartSpinner (searchResults m)); fields.
        now rewrite K, S, D.
      * now rewrite K, S, D.
    + now rewrite K, S, D.
Qed.

Lemma focus_search_key m t s d :
  focusView m = (keys, t, s, d) ->
  focusView (fst (Update m (KeyMsg "ctrl+f")))
  = (keys, searchTab, if t =? searchTab then s else true, d).
Proof.
  unfold focusView. intros [= K T S D].
  unfold Update. rewrite K. eval_keys. cbv beta iota zeta. fields.
  rewrite T. destruct (t =? searchTab) eqn:E; fields.
  - apply Z.eqb_eq in E. now rewrite K, T, S, D, E.
  - now rewrite K, Focused_Focus, D.
Qed.

Lemma focus_back m s d :
  focusView m = (keys, resultsTab, s, d) ->
  focusView (fst (Update m (KeyMsg "esc"))) = (keys, searchTab, true, d).
Proof.
  unfold focusView. intros [= K T S D].
  unfold Update. rewrite K. eval_keys. cbv beta iota zeta. fields.
  rewrite T. fields. now rewrite K, Focused_Focus, D.
Qed.

Lemma focusView_both m :
  focusView m = (keys, searchTab, true, true) -> bothFocused m.
Proof. unfold focusView, bothFocused. intros [= K T S D]. auto. Qed.

(** C2, as the code behaves: after moving the focus to the directory field
    and leaving the search view, each way back into it (focus-search, back,
    next-tab) focuses the pattern field without blurring the directory
    field, so both inputs are focused. *)
Theorem reentering_search_view_focuses_both_inputs
        (getwd : string * option error) :
  bothFocused (dispatch (initialModel getwd)
                 [KeyMsg "tab"; KeyMsg "ctrl+t"; KeyMsg "ctrl+f"])
  /\ bothFocused (dispatch (initialModel getwd)
                    [KeyMsg "tab"; KeyMsg "ctrl+t"; KeyMsg "esc"])
  /\ bothFocused (dispatch (initialModel getwd)
                    [KeyMsg "tab"; KeyMsg "ctrl+t"; KeyMsg "ctrl+t";
                     KeyMsg "ctrl+t"]).
Proof.
  pose proof (focus_next_field _ _ (focus_initial getwd)) as H1.
  pose proof (focus_next_tab _ _ _ _ H1) as H2.
  change (Z.rem (int_add searchTab 1) 3) with resultsTab in H2.
  change (resultsTab =? searchTab) with false in H2. cbv iota in H2.
  split; [|split]; apply focusView_both; cbn [dispatch].
  - exact (focus_search_key _ _ _ _ H2).
  - exact (focus_back _ _ _ H2).
  - pose proof (focus_next_tab _ _ _ _ H2) as H3.
    change (Z.rem (int_add resultsTab 1) 3) with fileTab in H3.
    change (fileTab =? searchTab) with false in H3. cbv iota in H3.
    exact (focus_next_tab _ _ _ _ H3).
Qed.

End Focus.

Ltac run_io :=
  unfold runCmd, bind, ret, CombinedOutput, Open, ReadAll, Render;
  cbn [fst snd app].

Section Dispatch.
Context {B : Bubbles}.

(** C3: a [fileLoadedMsg] carrying an error sets an error status and makes
    the results tab the active one, whatever the state it arrives in; so
    after any sequence of messages that ends with a failed load the active
    tab is the results tab, never the file tab. *)
Theorem failed_file_load_forces_results_view
        (m : model) (content : string) (e : error) (msgs : list Msg) :
  activeTab (fst (Update m (fileLoadedMsg content (Some e)))) = resultsTab
  /\ statusMessageType (fst (Update m (fileLoadedMsg content (Some e))))
     = "error"
  /\ statusMessage (fst (Update m (fileLoadedMsg content (Some e))))
     = "Error loading file: " ++ e
  /\ snd (Update m (fileLoadedMsg content (Some e))) = cmd_nil
  /\ activeTab (dispatch m (msgs ++ [fileLoadedMsg content (Some e)]))
     = resultsTab
  /\ activeTab (dispatch m (msgs ++ [fileLoadedMsg content (Some e)]))
     <> fileTab.
Proof.
  assert (K : activeTab (dispatch m (msgs ++ [fileLoadedMsg content (Some e)]))
              = resultsTab).
  { rewrite dispatch_app. reflexivity. }
  repeat split; try reflexivity; try exact K.
  rewrite K. discriminate.
Qed.

(** C8: a [searchFinishedMsg] carrying an error replaces the status message
    and its type and nothing else; the result list widget, with its items,
    selection and filter, is the one of the state before, and no command is
    issued. *)
Theorem search_error_changes_only_status
        (m : model) (results : list Item) (e : error) :
  Update m (searchFinishedMsg results (Some e))
  = ({| tabs := tabs m;
        activeTab := activeTab m;
        searchInput := searchInput m;
        directoryInput := directoryInput m;
        searchResults := searchResults m;
        fileViewer := fileViewer m;
        statusMessage := "Error: " ++ e;
        statusMessageType := "error";
        width := width m;
        height := height m;
        showStatusBar := showStatusBar m;
        ready := ready m;
        help := help m;
        currentPath := currentPath m;
        currentSearchPattern := currentSearchPattern m;
        keymap := keymap m |}, cmd_nil)
  /\ searchResults (fst (Update m (searchFinishedMsg results (Some e))))
     = searchResults m
  /\ list_Items
       (searchResults (fst (Update m (searchFinishedMsg results (Some e)))))
     = list_Items (searchResults m)
  /\ list_SelectedItem
       (searchResults (fst (Update m (searchFinishedMsg results (Some e)))))
     = list_SelectedItem (searchResults m).
Proof. repeat split. Qed.

Lemma Update_confirm_result (m : model) (it : Item) :
  keymap m = keys -> activeTab m = resultsTab ->
  list_Items (searchResults m) <> [] ->
  list_SelectedItem (searchResults m) = Some it ->
  Update m (KeyMsg "enter")
  = (set_status (set_activeTab m fileTab)
       ("Viewing file: " ++ fullPath it) "info",
     cmd_loadFile (fullPath it) (lineNum it)).
Proof.
  intros K T I S. unfold Update. rewrite K, T, S. eval_keys.
  cbv beta iota zeta. fields.
  destruct (list_Items (searchResults m)); [congruence|]. reflexivity.
Qed.

End Dispatch.

(** The first command [loadFile] runs, if it runs any, is the pager on the
    path and line it was given. *)
Lemma loadFile_first_command w filepath lineNum cmd :
  hd_error (snd (runCmd (loadFile filepath lineNum) w)) = Some cmd ->
  cmd = batCommand lineNum filepath.
Proof.
  unfold loadFile. destruct (fmt.Sscanf_d lineNum) as [n|]; run_io;
    [|discriminate].
  destruct (run_CombinedOutput w (batCommand lineNum filepath)) as [out err].
  destruct (errContains err "executable file not found").
  - destruct (os_Open w filepath); run_io; [now intros [= <-]|].
    destruct (io_ReadAll w filepath) as [c [e|]]; run_io; [now intros [= <-]|].
    destruct (renderLines _ _ _ _ _ _) as [hc log] eqn:R.
    assert (G : forall lines i acc l h lg,
               renderLines lines i n acc w l = (h, lg) -> lg = l).
    { induction lines as [|x xs IH]; intros i acc l h lg; simpl.
      - unfold ret. now intros [= _ <-].
      - destruct (int_add i 1 =? n); run_io; apply IH. }
    apply G in R. subst log. now intros [= <-].
  - destruct err as [e|]; run_io; [|now intros [= <-]].
    destruct (run_CombinedOutput w (batPlainCommand filepath)) as [o2 [e2|]];
      run_io; now intros [= <-].
Qed.

(** C4: the records of an output are, in order, the records of its lines
    with at least two colons, one each; such a line splits at its first two
    colons into a file field, a line field and the undivided rest, which
    may hold more colons, and the record carries the three trimmed; blank
    lines are among the dropped ones; and this list is what a search whose
    process exits without error completes with. *)
Theorem parseOutput_keeps_wellformed_lines (output : string) :
  parseOutput output
  = map recordOf (filter wellFormed (strings.Split output newline))
  /\ List.length (parseOutput output)
     = List.length (filter wellFormed (strings.Split output newline))
  /\ (forall line,
         wellFormed line = true <->
         exists a b c, line = a ++ String colon (b ++ String colon c)
                       /\ countByte colon a = 0%nat
                       /\ countByte colon b = 0%nat)
  /\ (forall a b c,
         countByte colon a = 0%nat -> countByte colon b = 0%nat ->
         recordOf (a ++ String colon (b ++ String colon c))
         = {| fileName := strings.TrimSpace a;
              lineNum := strings.TrimSpace b;
              content := strings.TrimSpace c;
              fullPath := strings.TrimSpace a |})
  /\ (forall line,
         strings.TrimSpace line = EmptyString -> wellFormed line = false)
  /\ (forall w pattern path,
         pattern <> EmptyString ->
         run_CombinedOutput w (rgCommand pattern path) = (output, None) ->
         runCmd (executeRipgrep pattern path) w
         = (searchFinishedMsg (parseOutput output) None,
            [rgCommand pattern path])).
Proof.
  split; [apply parseOutput_filter|].
  split; [rewrite parseOutput_filter; apply length_map|].
  split; [apply wellFormed_fields|].
  split.
  { intros a b c Ha Hb. unfold recordOf. now rewrite SplitN_3_fields. }
  split; [apply blank_not_wellFormed|].
  intros w pattern path Hp Hr. unfold executeRipgrep.
  destruct (String.eqb_spec pattern ""); [congruence|].
  run_io. rewrite Hr. reflexivity.
Qed.

(** C5, where the code departs from the claim: the line number ["0"] is
    not a positive integer, yet [loadFile] runs the pager with it and
    completes with the pager's output. *)
Lemma loadFile_line_zero_runs_pager :
  parsesPositive "0" = false
  /\ runCmd (loadFile "main.go" "0") pagerWorld
     = (fileLoadedMsg "package main" None, [batCommand "0" "main.go"]).
Proof. split; reflexivity. Qed.

(** A line number that scans makes the pager the first command run. *)
Lemma loadFile_scannable_runs_pager w filepath lineNum n :
  fmt.Sscanf_d lineNum = Some n ->
  exists log,
    snd (runCmd (loadFile filepath lineNum) w)
    = batCommand lineNum filepath :: log.
Proof.
  intros H.
  destruct (snd (runCmd (loadFile filepath lineNum) w)) as [|c log] eqn:E.
  - exfalso. revert E. unfold loadFile. rewrite H. run_io.
    destruct (run_CombinedOutput w (batCommand lineNum filepath)) as [out err].
    destruct (errContains err "executable file not found").
    + destruct (os_Open w filepath); run_io; [discriminate|].
      destruct (io_ReadAll w filepath) as [c [e|]]; run_io; [discriminate|].
      destruct (renderLines _ _ _ _ _ _) as [hc log] eqn:R.
      assert (G : forall lines i acc l h lg,
                 renderLines lines i n acc w l = (h, lg) -> lg = l).
      { induction lines as [|x xs IH]; intros i acc l h lg; simpl.
        - unfold ret. now intros [= _ <-].
        - destruct (int_add i 1 =? n); run_io; apply IH. }
      apply G in R. subst log. discriminate.
    + destruct err as [e|]; run_io; [|discriminate].
      destruct (run_CombinedOutput w (batPlainCommand filepath)) as [o2 [e2|]];
        run_io; discriminate.
  - exists log. f_equal.
    apply (loadFile_first_command w filepath lineNum). now rewrite E.
Qed.

(** What the scanner and [decimalPrefix] read in some texts: the digits
    stop at the first byte that is not one, an underscore included. *)
Example decimalPrefix_samples :
  map decimalPrefix
      ["12"; " 12abc"; "1_000"; "0"; "-5"; "+7"; "9223372036854775807";
       ""; "abc"; "- 3"; "+-3"; "_1"; "9223372036854775808"; nl ++ "12"]
  = [Some 12; Some 12; Some 1; Some 0; Some (-5); Some 7;
     Some 9223372036854775807;
     None; None; None; None; None; None; None]
  /\ map fmt.Sscanf_d ["1_000"; "5_"; "12_"; "1__2"; "abc"; ""]
     = [Some 1; Some 5; Some 12; Some 1; None; None]
  /\ runCmd (loadFile "main.go" "1_000") pagerWorld
     = (fileLoadedMsg "package main" None, [batCommand "1_000" "main.go"]).
Proof. repeat split; vm_compute; reflexivity. Qed.

(** C5, amended: [loadFile] rejects the line numbers at whose start no
    decimal integer can be read, and only those. For a text shorter than
    2^30 bytes the scan with [%d] is [decimalPrefix]: past white space
    other than a line feed, an optional sign and then the decimal digits
    that follow, at least one, of a number that fits [int64]. When the
    text has no such prefix, [loadFile] completes at once with the
    invalid-line-number error and runs no external command; when it has
    one, whatever its sign and whatever follows it, the pager is the first
    command run. *)
Theorem loadFile_rejects_text_without_decimal_prefix
        (w : World) (filepath lineNum : string) :
  Z.of_nat (String.length lineNum) < fmt.hugeWid ->
  fmt.Sscanf_d lineNum = decimalPrefix lineNum
  /\ (decimalPrefix lineNum = None ->
      runCmd (loadFile filepath lineNum) w
      = (fileLoadedMsg "" (Some ("invalid line number: " ++ lineNum)), []))
  /\ (forall n,
         decimalPrefix lineNum = Some n ->
         exists log,
           snd (runCmd (loadFile filepath lineNum) w)
           = batCommand lineNum filepath :: log).
Proof.
  intros Hl. pose proof (Sscanf_d_decimalPrefix lineNum Hl) as E.
  split; [exact E|]. split.
  - intros H. unfold loadFile. now rewrite E, H.
  - intros n H. apply (loadFile_scannable_runs_pager w filepath lineNum n).
    now rewrite E.
Qed.

Lemma loadFile_rejects_text_without_decimal_prefix_witness :
  Z.of_nat (String.length "abc") < fmt.hugeWid
  /\ fmt.Sscanf_d "abc" = decimalPrefix "abc"
  /\ (decimalPrefix "abc" = None ->
      runCmd (loadFile "main.go" "abc") pagerWorld
      = (fileLoadedMsg "" (Some ("invalid line number: " ++ "abc")), []))
  /\ (forall n,
         decimalPrefix "abc" = Some n ->
         exists log,
           snd (runCmd (loadFile "main.go" "abc") pagerWorld)
           = batCommand "abc" "main.go" :: log).
Proof.
  split; [reflexivity|].
  apply (loadFile_rejects_text_without_decimal_prefix pagerWorld "main.go" "abc").
  reflexivity.
Defined.

(** C6: when the search process ends with an error (a non-zero exit status)
    and its combined output is blank, the search completes without an error
    and with no matches. *)
Theorem blank_output_failure_is_no_matches
        (w : World) (pattern path output : string) (e : error) :
  pattern <> EmptyString ->
  run_CombinedOutput w (rgCommand pattern path) = (output, Some e) ->
  strings.TrimSpace output = EmptyString ->
  runCmd (executeRipgrep pattern path) w
  = (searchFinishedMsg [] None, [rgCommand pattern path]).
Proof.
  intros Hp Hr Hb. unfold executeRipgrep.
  destruct (String.eqb_spec pattern ""); [congruence|].
  run_io. rewrite Hr.
  rewrite (blank_not_Contains output "N" "o such file or directory" Hb eq_refl).
  rewrite Hb. reflexivity.
Qed.

Lemma blank_output_failure_is_no_matches_witness :
  runCmd (executeRipgrep "TODO" ".") noMatchWorld
  = (searchFinishedMsg [] None, [rgCommand "TODO" "."]).
Proof.
  apply (blank_output_failure_is_no_matches
           noMatchWorld "TODO" "." EmptyString "exit status 1").
  - discriminate.
  - reflexivity.
  - reflexivity.
Defined.

(** C7: when the line number scans and the pager's first run, with the line
    marked, fails with an error other than a missing executable, [loadFile]
    runs the pager exactly once more, without the line-marking arguments,
    and completes with that run's output if it succeeds and with its error
    otherwise; [executeRipgrep] never runs more than its one command. *)
Theorem loadFile_retries_once_without_line_marking
        (w : World) (filepath lineNum : string) (n : Z)
        (out1 : string) (e1 : error) :
  fmt.Sscanf_d lineNum = Some n ->
  run_CombinedOutput w (batCommand lineNum filepath) = (out1, Some e1) ->
  strings.Contains e1 "executable file not found" = false ->
  runCmd (loadFile filepath lineNum) w
  = (match run_CombinedOutput w (batPlainCommand filepath) with
     | (out2, None) => fileLoadedMsg out2 None
     | (_, Some e2) => fileLoadedMsg "" (Some e2)
     end,
     [batCommand lineNum filepath; batPlainCommand filepath])
  /\ Args (batPlainCommand filepath)
     = ["--color=always"; "--style=full"; filepath]
  /\ (forall w' pattern path,
         snd (runCmd (executeRipgrep pattern path) w') = []
         \/ snd (runCmd (executeRipgrep pattern path) w')
            = [rgCommand pattern path]).
Proof.
  intros Hs Hr Hc. split; [|split; [reflexivity|]].
  - unfold loadFile. rewrite Hs. run_io. rewrite Hr.
    cbn [errContains]. rewrite Hc. run_io.
    destruct (run_CombinedOutput w (batPlainCommand filepath)) as [o2 [e2|]];
      reflexivity.
  - intros w' pattern path. unfold executeRipgrep.
    destruct (pattern =? "")%string; [now left|]. right. run_io.
    destruct (run_CombinedOutput w' (rgCommand pattern path)) as [o [e|]];
      [|reflexivity].
    destruct (strings.Contains o "No such file or directory"); [reflexivity|].
    destruct (strings.TrimSpace o =? "")%string; reflexivity.
Qed.

Lemma loadFile_retries_once_without_line_marking_witness :
  runCmd (loadFile "main.go" "7") strictPagerWorld
  = (fileLoadedMsg "package main" None,
     [batCommand "7" "main.go"; batPlainCommand "main.go"]).
Proof.
  apply (loadFile_retries_once_without_line_marking
           strictPagerWorld "main.go" "7" 7
           "[bat error]: invalid line" "exit status 1");
    reflexivity.
Defined.

(** C9, where the code departs from the claim: a file name with a colon in
    it shifts the fields, and the record's line number is text that does
    not parse as a positive integer. *)
Lemma parseOutput_line_number_not_numeric :
  parseOutput "notes:draft.txt:3:TODO"
  = [{| fileName := "notes"; lineNum := "draft.txt"; content := "3:TODO";
        fullPath := "notes" |}]
  /\ parsesPositive "draft.txt" = false.
Proof. split; reflexivity. Qed.

(** C9, amended: the line number of a record is the trimmed text between
    the first two colons of its output line, unchecked; it parses as a
    positive integer whenever that text is the decimal numeral of one. *)
Theorem parseOutput_line_number_is_second_field
        (output : string) (it : Item) :
  In it (parseOutput output) ->
  exists line a b c,
    In line (strings.Split output newline)
    /\ line = a ++ String colon (b ++ String colon c)
    /\ countByte colon a = 0%nat /\ countByte colon b = 0%nat
    /\ lineNum it = strings.TrimSpace b
    /\ (positiveNumeral (strings.TrimSpace b) = true ->
        parsesPositive (lineNum it) = true).
Proof.
  intros H. destruct (parseOutput_In _ _ H) as (line & a & b & c & Hl & E & Ha & Hb & ->).
  exists line, a, b, c. cbn [lineNum]. repeat split; auto.
  apply positiveNumeral_parses.
Qed.

Lemma parseOutput_line_number_is_second_field_witness :
  exists line a b c,
    In line (strings.Split sampleOutput newline)
    /\ line = a ++ String colon (b ++ String colon c)
    /\ countByte colon a = 0%nat /\ countByte colon b = 0%nat
    /\ lineNum sampleItem = strings.TrimSpace b
    /\ (positiveNumeral (strings.TrimSpace b) = true ->
        parsesPositive (lineNum sampleItem) = true).
Proof.
  apply (parseOutput_line_number_is_second_field sampleOutput sampleItem).
  left. reflexivity.
Defined.

(** C10: a record's full path is its file name, the trimmed first field of
    its output line with nothing put in front; confirming on the results
    tab issues the file load for exactly that text and the record's line
    number, and the pager is run on it. *)
Theorem confirm_loads_path_as_printed
        {B : Bubbles} (m : model) (output : string) (it : Item) :
  keymap m = keys ->
  activeTab m = resultsTab ->
  list_Items (searchResults m) = parseOutput output ->
  In it (parseOutput output) ->
  list_SelectedItem (searchResults m) = Some it ->
  fullPath it = fileName it
  /\ (exists line a b c,
         In line (strings.Split output newline)
         /\ line = a ++ String colon (b ++ String colon c)
         /\ countByte colon a = 0%nat /\ countByte colon b = 0%nat
         /\ fullPath it = strings.TrimSpace a)
  /\ snd (Update m (KeyMsg "enter"))
     = cmd_loadFile (fullPath it) (lineNum it)
  /\ (forall w cmd,
         hd_error (snd (runCmd (loadFile (fullPath it) (lineNum it)) w))
         = Some cmd ->
         Args cmd = ["--color=always"; "--style=full"; "--highlight-line";
                     lineNum it; fullPath it]).
Proof.
  intros K T I Hin S.
  destruct (parseOutput_In _ _ Hin) as (line & a & b & c & Hl & E & Ha & Hb & Hit).
  split; [now rewrite Hit|].
  split; [exists line, a, b, c; rewrite Hit; now repeat split|].
  split.
  - rewrite (Update_confirm_result m it K T); [reflexivity| |assumption].
    rewrite I. intros N. now rewrite N in Hin.
  - intros w cmd H. apply loadFile_first_command in H. now subst cmd.
Qed.

Lemma confirm_loads_path_as_printed_witness :
  fullPath sampleItem = fileName sampleItem
  /\ (exists line a b c,
         In line (strings.Split sampleOutput newline)
         /\ line = a ++ String colon (b ++ String colon c)
         /\ countByte colon a = 0%nat /\ countByte colon b = 0%nat
         /\ fullPath sampleItem = strings.TrimSpace a)
  /\ snd (Update plainResults (KeyMsg "enter"))
     = cmd_loadFile (fullPath sampleItem) (lineNum sampleItem)
  /\ (forall w cmd,
         hd_error (snd (runCmd (loadFile (fullPath sampleItem)
                                         (lineNum sampleItem)) w))
         = Some cmd ->
         Args cmd = ["--color=always"; "--style=full"; "--highlight-line";
                     lineNum sampleItem; fullPath sampleItem]).
Proof.
  apply (confirm_loads_path_as_printed plainResults sampleOutput sampleItem).
  - reflexivity.
  - reflexivity.
  - reflexivity.
  - left. reflexivity.
  - reflexivity.
Defined.

(** ** The scenarios of the specification *)

Example scenario_two_matches :
  parseOutput ("a.go:3:// TODO fix" ++ nl ++ "b.go:10:// TODO later")
  = [{| fileName := "a.go"; lineNum := "3"; content := "// TODO fix";
        fullPath := "a.go" |};
     {| fileName := "b.go"; lineNum := "10"; content := "// TODO later";
        fullPath := "b.go" |}].
Proof. reflexivity. Qed.

Example scenario_content_with_colon :
  map content (parseOutput "a.go:10:foo:bar") = ["foo:bar"].
Proof. reflexivity. Qed.

Example scenario_status_counts_matches :
  statusMessage
    (fst (Update plainStart
            (searchFinishedMsg
               (parseOutput ("a.go:3:// TODO fix" ++ nl
                             ++ "b.go:10:// TODO later")) None)))
  = "Found 2 results".
Proof. reflexivity. Qed.

Example scenario_empty_pattern w :
  runCmd (executeRipgrep EmptyString ".") w
  = (searchFinishedMsg [] (Some "empty search pattern"), []).
Proof. reflexivity. Qed.

(** What [executeRipgrep] does with any other failure of the search
    process: the output is parsed as if the process had succeeded. *)
Lemma executeRipgrep_other_failure_parses_output
      (w : World) (pattern path output : string) (e : error) :
  pattern <> EmptyString ->
  run_CombinedOutput w (rgCommand pattern path) = (output, Some e) ->
  strings.Contains output "No such file or directory" = false ->
  strings.TrimSpace output <> EmptyString ->
  runCmd (executeRipgrep pattern path) w
  = (searchFinishedMsg (parseOutput output) None, [rgCommand pattern path]).
Proof.
  intros Hp Hr Hc Hb. unfold executeRipgrep.
  destruct (String.eqb_spec pattern ""); [congruence|].
  run_io. rewrite Hr, Hc.
  destruct (String.eqb_spec (strings.TrimSpace output) ""); [congruence|].
  reflexivity.
Qed.

(** * More of the program *)

(** ** What no message changes *)

Ltac break_update :=
  repeat (match goal with
          | |- context [textinput_Update ?a ?b] => destruct (textinput_Update a b)
          | |- context [list_Update ?a ?b] => destruct (list_Update a b)
          | |- context [viewport_Update ?a ?b] => destruct (viewport_Update a b)
          | |- context [list_StartSpinner ?a] => destruct (list_StartSpinner a)
          | |- context [match ?x with Some _ => _ | None => _ end] =>
            destruct x eqn:?
          | |- context [if ?b then _ else _] => destruct b eqn:?
          end; cbv beta iota zeta).

Lemma next_tab_value t :
  0 <= t <= 2 -> Z.rem (int_add t 1) 3 = if t =? 2 then 0 else t + 1.
Proof.
  intros H. assert (t = 0 \/ t = 1 \/ t = 2) as [->|[->| ->]] by lia;
    reflexivity.
Qed.

Section Invariants.
Context {B : Bubbles}.

Lemma Update_frame (m : model) (msg : Msg) :
  keymap (fst (Update m msg)) = keymap m
  /\ currentPath (fst (Update m msg)) = currentPath m
  /\ tabs (fst (Update m msg)) = tabs m
  /\ showStatusBar (fst (Update m msg)) = showStatusBar m
  /\ ready (fst (Update m msg)) = ready m || isWindowSizeMsg msg
  /\ (statusMessageType (fst (Update m msg)) = statusMessageType m
      \/ statusMessageType (fst (Update m msg)) = "info"
      \/ statusMessageType (fst (Update m msg)) = "error")
  /\ (0 <= activeTab m <= 2 -> 0 <= activeTab (fst (Update m msg)) <= 2).
Proof.
  pose proof (next_tab_value (activeTab m)) as NT.
  unfold Update, routeToTab.
  destruct msg; cbv beta iota zeta; break_update.
  all: fields; cbn [isWindowSizeMsg]; rewrite ?orb_false_r, ?orb_true_r.
  all: repeat split; auto.
  all: try (unfold searchTab, resultsTab, fileTab; lia).
  all: try match goal with
           | R : 0 <= activeTab ?x <= 2 |- _ =>
             rewrite (NT R); destruct (Z.eqb_spec (activeTab x) 2); lia
           end.
Qed.

End Invariants.

Section Reachable.
Context {B : Bubbles}.

Lemma dispatch_snoc (m : model) msgs msg :
  dispatch m (msgs ++ [msg]) = fst (Update (dispatch m msgs) msg).
Proof. now rewrite dispatch_app. Qed.

Lemma dispatch_keymap (m : model) (msgs : list Msg) :
  keymap (dispatch m msgs) = keymap m.
Proof.
  revert m. induction msgs as [|msg msgs IH]; intros m; [reflexivity|].
  cbn [dispatch]. rewrite IH. apply (Update_frame m msg).
Qed.

Lemma dispatch_currentPath (m : model) (msgs : list Msg) :
  currentPath (dispatch m msgs) = currentPath m.
Proof.
  revert m. induction msgs as [|msg msgs IH]; intros m; [reflexivity|].
  cbn [dispatch]. rewrite IH. apply (Update_frame m msg).
Qed.

(** X1: no message changes the key map, the default search directory, the
    tab titles or the status-bar flag: after any sequence of messages they
    are those of the state the sequence started from. *)
Theorem configuration_never_changes (m : model) (msgs : list Msg) :
  keymap (dispatch m msgs) = keymap m
  /\ currentPath (dispatch m msgs) = currentPath m
  /\ tabs (dispatch m msgs) = tabs m
  /\ showStatusBar (dispatch m msgs) = showStatusBar m.
Proof.
  revert m. induction msgs as [|msg msgs IH]; intros m; [now repeat split|].
  cbn [dispatch].
  destruct (IH (fst (Update m msg))) as (K & P & T & S).
  destruct (Update_frame m msg) as (K' & P' & T' & S' & _).
  rewrite K, P, T, S. now repeat split.
Qed.

Lemma reachable_keymap getwd msgs :
  keymap (dispatch (initialModel getwd) msgs) = keys.
Proof. apply dispatch_keymap. Qed.

Lemma dispatch_tab_range (m : model) msgs :
  0 <= activeTab m <= 2 -> 0 <= activeTab (dispatch m msgs) <= 2.
Proof.
  revert m. induction msgs as [|msg msgs IH]; intros m H; [assumption|].
  cbn [dispatch]. apply IH.
  now apply (Update_frame m msg).
Qed.

Lemma reachable_tab_range getwd msgs :
  0 <= activeTab (dispatch (initialModel getwd) msgs) <= 2.
Proof.
  apply dispatch_tab_range. cbn [initialModel activeTab]. unfold searchTab. lia.
Qed.

(** X2: in every state reached from the initial one the active tab is one
    of the three tabs. *)
Theorem active_tab_is_a_tab (getwd : string * option error) (msgs : list Msg) :
  activeTab (dispatch (initialModel getwd) msgs) = searchTab
  \/ activeTab (dispatch (initialModel getwd) msgs) = resultsTab
  \/ activeTab (dispatch (initialModel getwd) msgs) = fileTab.
Proof.
  pose proof (reachable_tab_range getwd msgs) as H.
  unfold searchTab, resultsTab, fileTab. lia.
Qed.

(** X4: in every state reached from the initial one the status message
    type is ["info"] or ["error"]. *)
Theorem status_type_is_info_or_error
        (getwd : string * option error) (msgs : list Msg) :
  statusMessageType (dispatch (initialModel getwd) msgs) = "info"
  \/ statusMessageType (dispatch (initialModel getwd) msgs) = "error".
Proof.
  induction msgs as [|msg msgs IH] using rev_ind; [now left|].
  rewrite dispatch_snoc.
  destruct (Update_frame (dispatch (initialModel getwd) msgs) msg)
    as (_ & _ & _ & _ & _ & [E|[E|E]] & _); rewrite E; auto.
Qed.

(** X5: the model is ready exactly when a window size has been received:
    [ready] is set by [WindowSizeMsg] and by no other message, and is never
    cleared. *)
Theorem ready_iff_window_size_received (m : model) (msgs : list Msg) :
  ready (dispatch m msgs) = ready m || existsb isWindowSizeMsg msgs.
Proof.
  revert m. induction msgs as [|msg msgs IH]; intros m.
  - simpl. now rewrite orb_false_r.
  - cbn [dispatch existsb]. rewrite IH.
    destruct (Update_frame m msg) as (_ & _ & _ & _ & R & _).
    rewrite R. now rewrite orb_assoc.
Qed.

Lemma Update_quit (m : model) k :
  keymap m = keys -> k = "q" \/ k = "ctrl+c" ->
  Update m (KeyMsg k) = (m, tea_Quit).
Proof.
  intros K [-> | ->]; unfold Update; rewrite K; eval_keys; reflexivity.
Qed.

(** X7: in every state reached from the initial one, the keys [q] and
    [ctrl+c] return the quit command and leave the model as it is, whichever
    tab is active and whichever text field has the focus: the key never
    reaches a text input. *)
Theorem quit_keys_preempt_the_widgets
        (getwd : string * option error) (msgs : list Msg) :
  Update (dispatch (initialModel getwd) msgs) (KeyMsg "q")
  = (dispatch (initialModel getwd) msgs, tea_Quit)
  /\ Update (dispatch (initialModel getwd) msgs) (KeyMsg "ctrl+c")
     = (dispatch (initialModel getwd) msgs, tea_Quit).
Proof.
  split; apply Update_quit; auto using reachable_keymap.
Qed.

Lemma model_eta (m : model) :
  {| tabs := tabs m; activeTab := activeTab m; searchInput := searchInput m;
     directoryInput := directoryInput m; searchResults := searchResults m;
     fileViewer := fileViewer m; statusMessage := statusMessage m;
     statusMessageType := statusMessageType m; width := width m;
     height := height m; showStatusBar := showStatusBar m; ready := ready m;
     help := help m; currentPath := currentPath m;
     currentSearchPattern := currentSearchPattern m; keymap := keymap m |}
  = m.
Proof. now destruct m. Qed.

Lemma Update_help (m : model) :
  keymap m = keys ->
  Update m (KeyMsg "?")
  = (set_help m {| ShowAll := negb (ShowAll (help m));
                   help_Width := help_Width (help m) |}, cmd_nil).
Proof. intros K. unfold Update. rewrite K. eval_keys. reflexivity. Qed.

(** X9: toggling the help twice restores the state exactly: in every state
    reached from the initial one, two presses of [?] give back the same
    model, and each press issues no command. *)
Theorem help_toggle_twice_is_identity
        (getwd : string * option error) (msgs : list Msg) :
  dispatch (dispatch (initialModel getwd) msgs) [KeyMsg "?"; KeyMsg "?"]
  = dispatch (initialModel getwd) msgs
  /\ ShowAll (help (dispatch (dispatch (initialModel getwd) msgs)
                      [KeyMsg "?"]))
     = negb (ShowAll (help (dispatch (initialModel getwd) msgs)))
  /\ snd (Update (dispatch (initialModel getwd) msgs) (KeyMsg "?")) = cmd_nil.
Proof.
  pose proof (reachable_keymap getwd msgs) as K.
  set (m := dispatch (initialModel getwd) msgs) in *.
  cbn [dispatch]. rewrite (Update_help m K). cbn [fst snd].
  rewrite Update_help by exact K. cbn [fst].
  repeat split.
  unfold set_help. fields. cbn [help ShowAll help_Width].
  rewrite negb_involutive.
  destruct m as [? ? ? ? ? ? ? ? ? ? ? ? [sa hw] ? ? ?]. reflexivity.
Qed.

Lemma Update_next_tab (m : model) :
  keymap m = keys ->
  activeTab (fst (Update m (KeyMsg "ctrl+t")))
  = Z.rem (int_add (activeTab m) 1) 3.
Proof.
  intros K.
  pose proof (focus_next_tab m (activeTab m)
                (textinput_Focused (searchInput m))
                (textinput_Focused (directoryInput m))) as H.
  unfold focusView in H. rewrite K in H. specialize (H eq_refl).
  now injection H as _ H _ _.
Qed.

(** X3: next-tab is a closed cycle of length three: from every state
    reached from the initial one, three presses of [ctrl+t] lead back to
    the tab they started from, and one or two presses do not. *)
Theorem next_tab_is_a_three_cycle
        (getwd : string * option error) (msgs : list Msg) :
  activeTab (dispatch (dispatch (initialModel getwd) msgs)
               [KeyMsg "ctrl+t"; KeyMsg "ctrl+t"; KeyMsg "ctrl+t"])
  = activeTab (dispatch (initialModel getwd) msgs)
  /\ activeTab (dispatch (dispatch (initialModel getwd) msgs)
                  [KeyMsg "ctrl+t"])
     <> activeTab (dispatch (initialModel getwd) msgs)
  /\ activeTab (dispatch (dispatch (initialModel getwd) msgs)
                  [KeyMsg "ctrl+t"; KeyMsg "ctrl+t"])
     <> activeTab (dispatch (initialModel getwd) msgs).
Proof.
  pose proof (reachable_tab_range getwd msgs) as R.
  pose proof (reachable_keymap getwd msgs) as K.
  set (m := dispatch (initialModel getwd) msgs) in *.
  cbn [dispatch].
  set (m1 := fst (Update m (KeyMsg "ctrl+t"))).
  set (m2 := fst (Update m1 (KeyMsg "ctrl+t"))).
  assert (K1 : keymap m1 = keys)
    by (unfold m1; now rewrite (proj1 (Update_frame m _))).
  assert (K2 : keymap m2 = keys)
    by (unfold m2; now rewrite (proj1 (Update_frame m1 _))).
  rewrite (Update_next_tab m2 K2).
  unfold m2. rewrite (Update_next_tab m1 K1).
  unfold m1. rewrite (Update_next_tab m K).
  assert (activeTab m = 0 \/ activeTab m = 1 \/ activeTab m = 2)
    as [-> | [-> | ->]] by lia;
    repeat split; vm_compute; congruence.
Qed.

End Reachable.

(** ** Focus, navigation and confirmation *)

Ltac break_update_eqn :=
  repeat (match goal with
          | |- context [textinput_Update ?a ?b] =>
            destruct (textinput_Update a b) eqn:?
          | |- context [list_Update ?a ?b] => destruct (list_Update a b)
          | |- context [viewport_Update ?a ?b] => destruct (viewport_Update a b)
          | |- context [list_StartSpinner ?a] => destruct (list_StartSpinner a)
          | |- context [match ?x with Some _ => _ | None => _ end] =>
            destruct x eqn:?
          | |- context [if ?b then _ else _] => destruct b eqn:?
          end; cbv beta iota zeta).

Section Navigation.
Context {B : Bubbles}.

Lemma Update_keeps_a_focus (m : model) (msg : Msg) :
  (forall t msg',
      textinput_Focused (fst (textinput_Update t msg')) = textinput_Focused t) ->
  textinput_Focused (searchInput m) || textinput_Focused (directoryInput m)
  = true ->
  textinput_Focused (searchInput (fst (Update m msg)))
  || textinput_Focused (directoryInput (fst (Update m msg))) = true.
Proof.
  intros Hupd H.
  pose proof (Hupd (searchInput m) msg) as U1.
  pose proof (Hupd (directoryInput m) msg) as U2.
  unfold Update, routeToTab.
  destruct msg; cbv beta iota zeta; break_update_eqn; fields;
    cbn [fst orb] in *;
    rewrite ?Focused_Focus, ?Focused_Blur, ?Focused_SetWidth;
    repeat match goal with
           | E : textinput_Focused _ = _ |- _ => rewrite E
           end;
    rewrite ?orb_true_r; cbn [orb]; try reflexivity; try assumption;
    try discriminate.
Qed.

(** X6: provided the text input's own [Update] leaves its focus flag alone,
    in every state reached from the initial one the pattern field or the
    directory field has the focus: the search view is never left without a
    focused input. *)
Theorem some_input_is_always_focused
        (getwd : string * option error) (msgs : list Msg) :
  (forall t msg,
      textinput_Focused (fst (textinput_Update t msg)) = textinput_Focused t) ->
  textinput_Focused (searchInput (dispatch (initialModel getwd) msgs))
  || textinput_Focused (directoryInput (dispatch (initialModel getwd) msgs))
  = true.
Proof.
  intros Hupd. induction msgs as [|msg msgs IH] using rev_ind.
  - cbn [dispatch initialModel searchInput].
    now rewrite Focused_SetWidth, Focused_Focus.
  - rewrite dispatch_snoc. now apply Update_keeps_a_focus.
Qed.

Lemma Update_back (m : model) :
  keymap m = keys ->
  activeTab (fst (Update m (KeyMsg "esc")))
  = (if activeTab m =? fileTab then resultsTab
     else if activeTab m =? resultsTab then searchTab else activeTab m)
  /\ (activeTab m = searchTab -> Update m (KeyMsg "esc") = (m, cmd_nil)).
Proof.
  intros K. unfold Update. rewrite K. eval_keys. cbv beta iota zeta. split.
  - destruct (activeTab m =? fileTab); fields; [reflexivity|].
    destruct (activeTab m =? resultsTab); fields; reflexivity.
  - intros ->. reflexivity.
Qed.

Lemma Update_focus_search (m : model) k :
  keymap m = keys -> k = "ctrl+f" \/ k = "ctrl+s" ->
  activeTab (fst (Update m (KeyMsg k))) = searchTab.
Proof.
  intros K [-> | ->]; unfold Update; rewrite K; eval_keys;
    cbv beta iota zeta; cbn [orb];
    destruct (Z.eqb_spec (activeTab m) searchTab); cbn [negb]; fields; auto.
Qed.

(** X22: from every state reached from the initial one, [ctrl+f] and
    [ctrl+s] lead to the search view, and so do two presses of [esc]; in the
    search view [esc] changes nothing and issues no command. *)
Theorem search_view_is_two_backs_away
        (getwd : string * option error) (msgs : list Msg) :
  activeTab (dispatch (dispatch (initialModel getwd) msgs)
               [KeyMsg "esc"; KeyMsg "esc"]) = searchTab
  /\ activeTab (dispatch (dispatch (initialModel getwd) msgs)
                  [KeyMsg "ctrl+f"]) = searchTab
  /\ activeTab (dispatch (dispatch (initialModel getwd) msgs)
                  [KeyMsg "ctrl+s"]) = searchTab
  /\ (activeTab (dispatch (initialModel getwd) msgs) = searchTab ->
      Update (dispatch (initialModel getwd) msgs) (KeyMsg "esc")
      = (dispatch (initialModel getwd) msgs, cmd_nil)).
Proof.
  pose proof (reachable_tab_range getwd msgs) as R.
  pose proof (reachable_keymap getwd msgs) as K.
  set (m := dispatch (initialModel getwd) msgs) in *.
  cbn [dispatch].
  split; [|split; [|split]].
  - set (m1 := fst (Update m (KeyMsg "esc"))).
    assert (K1 : keymap m1 = keys)
      by (unfold m1; now rewrite (proj1 (Update_frame m _))).
    rewrite (proj1 (Update_back m1 K1)). unfold m1.
    rewrite (proj1 (Update_back m K)).
    assert (activeTab m = 0 \/ activeTab m = 1 \/ activeTab m = 2)
      as [-> | [-> | ->]] by lia;
      reflexivity.
  - apply Update_focus_search; auto.
  - apply Update_focus_search; auto.
  - apply (proj2 (Update_back m K)).
Qed.

(** X10: confirming in the search view with a non-empty pattern, in any
    state reached from the initial one, issues the search for that pattern
    under the directory field's text, or, when that is empty, under the
    working directory found at start-up (["."] if that could not be found),
    and moves to the results tab with an info status. *)
Theorem confirm_searches_under_directory_or_startup_cwd
        (getwd : string * option error) (msgs : list Msg) :
  activeTab (dispatch (initialModel getwd) msgs) = searchTab ->
  textinput_Value (searchInput (dispatch (initialModel getwd) msgs))
  <> EmptyString ->
  snd (Update (dispatch (initialModel getwd) msgs) (KeyMsg "enter"))
  = cmd_executeRipgrep
      (textinput_Value (searchInput (dispatch (initialModel getwd) msgs)))
      (if (textinput_Value
             (directoryInput (dispatch (initialModel getwd) msgs)) =? "")%string
       then match snd getwd with Some _ => "." | None => fst getwd end
       else textinput_Value
              (directoryInput (dispatch (initialModel getwd) msgs)))
  /\ activeTab (fst (Update (dispatch (initialModel getwd) msgs)
                       (KeyMsg "enter"))) = resultsTab
  /\ statusMessageType (fst (Update (dispatch (initialModel getwd) msgs)
                               (KeyMsg "enter"))) = "info"
  /\ currentSearchPattern (fst (Update (dispatch (initialModel getwd) msgs)
                                  (KeyMsg "enter")))
     = textinput_Value (searchInput (dispatch (initialModel getwd) msgs)).
Proof.
  intros T V.
  pose proof (reachable_keymap getwd msgs) as K.
  pose proof (dispatch_currentPath (initialModel getwd) msgs) as P.
  cbn [initialModel currentPath] in P.
  set (m := dispatch (initialModel getwd) msgs) in *.
  unfold Update. rewrite K, T. eval_keys. cbv beta iota zeta. fields.
  destruct (String.eqb_spec (textinput_Value (searchInput m)) "");
    [congruence|]. cbn [negb]. fields.
  rewrite P.
  destruct (textinput_Value (directoryInput m) =? "")%string; cbn [negb];
    now repeat split.
Qed.

(** X11: a failed file load leaves the selection in place: the next
    confirmation issues the load of the same record again and shows the
    file tab. *)
Theorem confirm_after_failed_load_retries_it
        (m : model) (it : Item) (content : string) (e : error) :
  keymap m = keys ->
  list_Items (searchResults m) <> [] ->
  list_SelectedItem (searchResults m) = Some it ->
  snd (Update (fst (Update m (fileLoadedMsg content (Some e)))) (KeyMsg "enter"))
  = cmd_loadFile (fullPath it) (lineNum it)
  /\ activeTab (fst (Update (fst (Update m (fileLoadedMsg content (Some e))))
                       (KeyMsg "enter"))) = fileTab.
Proof.
  intros K I S.
  rewrite (Update_confirm_result
             (fst (Update m (fileLoadedMsg content (Some e)))) it);
    try assumption; try reflexivity.
  now split.
Qed.

(** X19: when the search process exits without error, the status after its
    completion is dispatched counts the output lines with at least two
    colons: ["Found N results"] for [N > 0], ["No results found"] for none,
    of type ["info"]. *)
Theorem status_counts_wellformed_lines
        (m : model) (w : World) (pattern path output : string) :
  pattern <> EmptyString ->
  run_CombinedOutput w (rgCommand pattern path) = (output, None) ->
  statusMessage
    (fst (Update m (fst (runCmd (executeRipgrep pattern path) w))))
  = (if Nat.eqb (List.length (filter wellFormed
                                (strings.Split output newline))) 0
     then "No results found"
     else "Found "
          ++ fmt.Sprint_d
               (Z.of_nat (List.length (filter wellFormed
                                         (strings.Split output newline))))
          ++ " results")
  /\ statusMessageType
       (fst (Update m (fst (runCmd (executeRipgrep pattern path) w))))
     = "info".
Proof.
  intros Hp Hr. unfold executeRipgrep.
  destruct (String.eqb_spec pattern ""); [congruence|].
  run_io. rewrite Hr. cbn [fst]. unfold Update.
  rewrite parseOutput_filter, length_map.
  destruct (Nat.eqb _ 0); fields; now split.
Qed.

End Navigation.

Lemma confirm_searches_under_directory_or_startup_cwd_witness :
  snd (Update (dispatch plainStart [KeyMsg "T"; KeyMsg "O"]) (KeyMsg "enter"))
  = cmd_executeRipgrep "TO" "/src"
  /\ activeTab (fst (Update (dispatch plainStart [KeyMsg "T"; KeyMsg "O"])
                       (KeyMsg "enter"))) = resultsTab
  /\ statusMessageType (fst (Update (dispatch plainStart
                                       [KeyMsg "T"; KeyMsg "O"])
                               (KeyMsg "enter"))) = "info"
  /\ currentSearchPattern (fst (Update (dispatch plainStart
                                          [KeyMsg "T"; KeyMsg "O"])
                                  (KeyMsg "enter"))) = "TO".
Proof.
  apply (confirm_searches_under_directory_or_startup_cwd
           (B := plainBubbles) ("/src", None) [KeyMsg "T"; KeyMsg "O"]).
  - reflexivity.
  - discriminate.
Defined.

Lemma confirm_after_failed_load_retries_it_witness :
  snd (Update (fst (Update plainResults
                      (fileLoadedMsg EmptyString (Some "exit status 1"))))
         (KeyMsg "enter"))
  = cmd_loadFile "a.go" "3"
  /\ activeTab (fst (Update (fst (Update plainResults
                                    (fileLoadedMsg EmptyString
                                       (Some "exit status 1"))))
                       (KeyMsg "enter"))) = fileTab.
Proof.
  apply (confirm_after_failed_load_retries_it
           (B := plainBubbles) plainResults sampleItem EmptyString
           "exit status 1").
  - reflexivity.
  - discriminate.
  - reflexivity.
Defined.

Lemma status_counts_wellformed_lines_witness :
  statusMessage
    (fst (Update plainStart
            (fst (runCmd (executeRipgrep "TODO" ".")
                    (worldOf (fun _ => (sampleOutput, None)))))))
  = "Found 1 results"
  /\ statusMessageType
       (fst (Update plainStart
               (fst (runCmd (executeRipgrep "TODO" ".")
                       (worldOf (fun _ => (sampleOutput, None)))))))
     = "info".
Proof.
  apply (status_counts_wellformed_lines
           (B := plainBubbles) plainStart
           (worldOf (fun _ => (sampleOutput, None))) "TODO" "." sampleOutput).
  - discriminate.
  - reflexivity.
Defined.

Lemma plain_textinput_keeps_focus (t : plain_textinput) (msg : Msg) :
  ti_focus (fst (plain_textinput_Update t msg)) = ti_focus t.
Proof.
  unfold plain_textinput_Update. destruct (ti_focus t) eqn:F; cbn [negb fst];
    [|assumption].
  destruct msg; cbn [fst]; try assumption.
  destruct (String.length k =? 1)%nat; cbn [fst ti_focus]; auto.
Qed.

Lemma some_input_is_always_focused_witness :
  textinput_Focused
    (searchInput (dispatch plainStart [KeyMsg "tab"; KeyMsg "x"; KeyMsg "esc"]))
  || textinput_Focused
       (directoryInput
          (dispatch plainStart [KeyMsg "tab"; KeyMsg "x"; KeyMsg "esc"]))
  = true.
Proof.
  apply (some_input_is_always_focused
           (B := plainBubbles) ("/src", None)
           [KeyMsg "tab"; KeyMsg "x"; KeyMsg "esc"]).
  exact plain_textinput_keeps_focus.
Defined.

(** ** More on splitting and on the records of an output *)

Lemma countByte_append c (a b : string) :
  countByte c (a ++ b) = (countByte c a + countByte c b)%nat.
Proof.
  induction a as [|x a IH]; simpl; [reflexivity|]. rewrite IH. lia.
Qed.

Lemma countByte_insert c x (a b : string) :
  countByte c (a ++ String x b)
  = (countByte c a + (if Ascii.eqb x c then 1 else 0) + countByte c b)%nat.
Proof. rewrite countByte_append. simpl. lia. Qed.

Lemma countByte_le_length c s : (countByte c s <= String.length s)%nat.
Proof.
  induction s as [|x s IH]; simpl; [lia|]. destruct (Ascii.eqb x c); lia.
Qed.

Lemma cut_app_some sep a x r b :
  strings.cut sep a = Some (x, r) ->
  strings.cut sep (a ++ b) = Some (x, r ++ b).
Proof.
  revert x. induction a as [|c a IH]; intros x; simpl; [discriminate|].
  destruct (Ascii.eqb c sep); [now intros [= <- <-]|].
  destruct (strings.cut sep a) as [[x' r']|]; [|discriminate].
  intros [= <- <-]. now rewrite (IH x' eq_refl).
Qed.

(** Enough fuel is as good as any more. *)
Lemma splitLoop_fuel sep n1 n2 s :
  (countByte sep s <= n1)%nat -> (countByte sep s <= n2)%nat ->
  strings.splitLoop n1 sep s = strings.splitLoop n2 sep s.
Proof.
  revert n2 s. induction n1 as [|n1 IH]; intros n2 s H1 H2.
  - assert (C : countByte sep s = 0%nat) by lia.
    destruct n2; simpl; [reflexivity|]. now rewrite (cut_none _ _ C).
  - simpl. pose proof (cut_count sep s) as C.
    destruct (strings.cut sep s) as [[a r]|] eqn:E.
    + destruct n2 as [|n2]; [lia|]. simpl. rewrite E. f_equal.
      apply IH; lia.
    + destruct n2; simpl; [reflexivity|]. now rewrite E.
Qed.

Lemma splitLoop_append sep n a b n1 n2 :
  (countByte sep (a ++ String sep b) <= n)%nat ->
  (countByte sep a <= n1)%nat -> (countByte sep b <= n2)%nat ->
  strings.splitLoop n sep (a ++ String sep b)
  = (strings.splitLoop n1 sep a ++ strings.splitLoop n2 sep b)%list.
Proof.
  revert a n1. induction n as [|n IH]; intros a n1 H H1 H2.
  - rewrite countByte_append in H. simpl in H. rewrite Ascii.eqb_refl in H. lia.
  - simpl. pose proof (cut_count sep a) as C.
    destruct (strings.cut sep a) as [[x r]|] eqn:E.
    + rewrite (cut_app_some _ _ _ _ (String sep b) E).
      destruct n1 as [|n1]; [lia|]. simpl. rewrite E. simpl. f_equal.
      apply IH; try lia.
      rewrite countByte_append in *. simpl in *. lia.
    + rewrite (cut_append _ _ _ C).
      replace (strings.splitLoop n1 sep a) with [a]
        by (destruct n1; simpl; [|rewrite E]; reflexivity).
      simpl. f_equal. apply splitLoop_fuel; [|assumption].
      rewrite countByte_append in H. simpl in H.
      rewrite Ascii.eqb_refl in H. lia.
Qed.

Lemma Split_append sep a b :
  strings.Split (a ++ String sep b) sep
  = (strings.Split a sep ++ strings.Split b sep)%list.
Proof.
  unfold strings.Split, strings.SplitN. cbn [Z.eqb Z.ltb Z.compare].
  apply splitLoop_append; apply countByte_le_length.
Qed.

Lemma Split_no_separator sep s :
  countByte sep s = 0%nat -> strings.Split s sep = [s].
Proof.
  intros C. unfold strings.Split, strings.SplitN. cbn [Z.eqb Z.ltb Z.compare].
  destruct (String.length s); simpl; [reflexivity|].
  now rewrite (cut_none _ _ C).
Qed.

Lemma splitLoop_pieces sep n s x :
  (countByte sep s <= n)%nat -> In x (strings.splitLoop n sep s) ->
  countByte sep x = 0%nat.
Proof.
  revert s. induction n as [|n IH]; intros s H Hin.
  - simpl in Hin. destruct Hin as [<-|[]]. lia.
  - simpl in Hin. pose proof (cut_count sep s) as C.
    destruct (strings.cut sep s) as [[a r]|] eqn:E.
    + destruct Hin as [<-|Hin].
      * now destruct (cut_some _ _ _ _ E) as (_ & ? & _).
      * apply (IH r); [lia | assumption].
    + destruct Hin as [<-|[]]. assumption.
Qed.

Lemma Split_pieces sep s x :
  In x (strings.Split s sep) -> countByte sep x = 0%nat.
Proof.
  unfold strings.Split, strings.SplitN. cbn [Z.eqb Z.ltb Z.compare].
  apply splitLoop_pieces, countByte_le_length.
Qed.

Lemma trimRightLoop_split fuel s :
  exists suf, s = strings.trimRightLoop unicode.IsSpace fuel s ++ suf.
Proof.
  revert s. induction fuel as [|k IH]; intros s.
  - exists EmptyString. simpl. now rewrite append_nil_r.
  - destruct s as [|c t]; [now exists EmptyString|].
    cbn [strings.trimRightLoop].
    destruct (utf8.DecodeLastRuneInString (String c t)) as [r size] eqn:D.
    destruct (unicode.IsSpace r) eqn:Sp;
      [|exists EmptyString; now rewrite append_nil_r].
    destruct (DecodeLast_trimmable _ _ _ D) as (pre & suf & Es & _ & _ & _ & Ep);
      [discriminate | assumption |].
    rewrite Ep. destruct (IH pre) as (suf' & E').
    exists (suf' ++ suf). rewrite <- append_assoc, <- E'. exact Es.
Qed.

(** Trimming only removes bytes. *)
Lemma TrimSpace_infix s :
  exists pre suf, s = pre ++ strings.TrimSpace s ++ suf.
Proof.
  unfold strings.TrimSpace, strings.TrimRightFunc, strings.TrimLeftFunc.
  destruct (trimLeftLoop_split (String.length s) s) as (pre & E & _).
  set (t := strings.trimLeftLoop unicode.IsSpace (String.length s) s) in *.
  destruct (trimRightLoop_split (String.length t) t) as (suf & E').
  exists pre, suf. now rewrite <- E'.
Qed.

Lemma TrimSpace_count c s :
  (countByte c (strings.TrimSpace s) <= countByte c s)%nat.
Proof.
  destruct (TrimSpace_infix s) as (pre & suf & E).
  rewrite E at 2. rewrite !countByte_append. lia.
Qed.

(** X12: parsing distributes over line-feed-separated outputs: the records
    of two outputs joined by a line feed are the records of the first
    followed by those of the second; so a trailing line feed adds nothing,
    and an output repeated gives its records twice (nothing is
    deduplicated). *)
Theorem parseOutput_distributes_over_newline (a b : string) :
  parseOutput (a ++ nl ++ b) = (parseOutput a ++ parseOutput b)%list
  /\ parseOutput (a ++ nl) = parseOutput a
  /\ parseOutput (a ++ nl ++ a) = (parseOutput a ++ parseOutput a)%list.
Proof.
  assert (D : forall x y,
             parseOutput (x ++ nl ++ y) = (parseOutput x ++ parseOutput y)%list).
  { intros x y. unfold parseOutput.
    change (x ++ nl ++ y) with (x ++ String newline y).
    rewrite Split_append, !parseLines_acc. simpl.
    now rewrite filter_app, map_app. }
  repeat split; try apply D.
  replace (a ++ nl) with (a ++ nl ++ "") by reflexivity.
  rewrite D. change (parseOutput "") with (@nil Item). apply app_nil_r.
Qed.

(** X14: no field of a record holds a line feed, and the file name and the
    line number hold no colon, so the title [file:line] of a record splits
    back in one way only. *)
Theorem record_fields_hold_no_separator (output : string) (it : Item) :
  In it (parseOutput output) ->
  countByte colon (fileName it) = 0%nat
  /\ countByte colon (lineNum it) = 0%nat
  /\ oneLine (fileName it) /\ oneLine (lineNum it) /\ oneLine (content it)
  /\ countByte colon (Title it) = 1%nat.
Proof.
  intros H.
  destruct (parseOutput_In _ _ H) as (line & a & b & c & Hl & E & Ha & Hb & ->).
  apply Split_pieces in Hl. rewrite E in Hl.
  rewrite !countByte_insert in Hl.
  change (Ascii.eqb colon newline) with false in Hl.
  pose proof (TrimSpace_count colon a). pose proof (TrimSpace_count colon b).
  pose proof (TrimSpace_count newline a). pose proof (TrimSpace_count newline b).
  pose proof (TrimSpace_count newline c).
  unfold oneLine, Title. cbn [fileName lineNum content].
  change (strings.TrimSpace a ++ ":" ++ strings.TrimSpace b)
    with (strings.TrimSpace a ++ String colon (strings.TrimSpace b)).
  rewrite countByte_insert. change (Ascii.eqb colon colon) with true.
  cbv iota in Hl |- *. repeat split; lia.
Qed.

Lemma record_fields_hold_no_separator_witness :
  countByte colon (fileName sampleItem) = 0%nat
  /\ countByte colon (lineNum sampleItem) = 0%nat
  /\ oneLine (fileName sampleItem) /\ oneLine (lineNum sampleItem)
  /\ oneLine (content sampleItem)
  /\ countByte colon (Title sampleItem) = 1%nat.
Proof.
  apply (record_fields_hold_no_separator sampleOutput sampleItem).
  left. reflexivity.
Defined.

(** X13: printing and parsing round-trip: for a record whose fields are
    trimmed and hold no line feed, whose file name and line number hold no
    colon and whose full path is its file name, the line
    [Title:Description] parses back to exactly that record. *)
Theorem title_and_description_parse_back (it : Item) :
  countByte colon (fileName it) = 0%nat ->
  countByte colon (lineNum it) = 0%nat ->
  oneLine (fileName it) -> oneLine (lineNum it) -> oneLine (content it) ->
  strings.TrimSpace (fileName it) = fileName it ->
  strings.TrimSpace (lineNum it) = lineNum it ->
  strings.TrimSpace (content it) = content it ->
  fullPath it = fileName it ->
  parseOutput (Title it ++ ":" ++ Description it) = [it].
Proof.
  intros Cf Cl Of Ol Oc Tf Tl Tc Fp.
  unfold Title, Description.
  replace ((fileName it ++ ":" ++ lineNum it) ++ ":" ++ content it)
    with (fileName it ++ String colon (lineNum it ++ String colon (content it)))
    by (rewrite append_assoc; reflexivity).
  rewrite parseOutput_filter.
  rewrite Split_no_separator.
  - cbn [filter].
    replace (wellFormed _) with true.
    + cbn [map]. unfold recordOf. rewrite SplitN_3_fields by assumption.
      cbn [nth]. rewrite Tf, Tl, Tc. destruct it; cbn in *. now subst.
    + symmetry. apply wellFormed_fields. now exists (fileName it), (lineNum it), (content it).
  - unfold oneLine in *. rewrite !countByte_insert, Of, Ol, Oc. reflexivity.
Qed.

Lemma title_and_description_parse_back_witness :
  parseOutput (Title sampleItem ++ ":" ++ Description sampleItem) = [sampleItem].
Proof.
  apply (title_and_description_parse_back sampleItem); reflexivity.
Defined.

(** ** More on the two commands *)

Lemma renderLines_log w n lines i acc log :
  snd (renderLines lines i n acc w log) = log.
Proof.
  revert i acc. induction lines as [|x xs IH]; intros i acc; simpl.
  - reflexivity.
  - destruct (int_add i 1 =? n); run_io; apply IH.
Qed.

(** X15: [loadFile] runs the pager and nothing else, at most twice: its
    command log is empty (the line number was rejected), or the pager with
    the line marked, or that followed by the pager without the marking. *)
Theorem loadFile_runs_only_the_pager (w : World) (filepath lineNum : string) :
  snd (runCmd (loadFile filepath lineNum) w) = []
  \/ snd (runCmd (loadFile filepath lineNum) w) = [batCommand lineNum filepath]
  \/ snd (runCmd (loadFile filepath lineNum) w)
     = [batCommand lineNum filepath; batPlainCommand filepath].
Proof.
  unfold loadFile. destruct (fmt.Sscanf_d lineNum) as [n|]; run_io;
    [|now left].
  destruct (run_CombinedOutput w (batCommand lineNum filepath)) as [out err].
  destruct (errContains err "executable file not found").
  - right. left.
    destruct (os_Open w filepath); run_io; [reflexivity|].
    destruct (io_ReadAll w filepath) as [c [e|]]; run_io; [reflexivity|].
    pose proof (renderLines_log w n (strings.Split c newline) 0 ""
                  [batCommand lineNum filepath]) as L.
    destruct (renderLines _ _ _ _ _ _) as [hc log]. exact L.
  - destruct err as [e|]; run_io; [|right; now left].
    right. right.
    destruct (run_CombinedOutput w (batPlainCommand filepath)) as [o2 [e2|]];
      reflexivity.
Qed.

(** X18: [executeRipgrep] completes with an error in two situations only:
    the pattern is empty, or the process failed and its output holds the
    text "No such file or directory"; with an error it carries no results;
    and it runs no command exactly when the pattern is empty. *)
Theorem executeRipgrep_reports_two_errors_only
        (w : World) (pattern path : string) :
  (completionError (fst (runCmd (executeRipgrep pattern path) w)) <> None
   <-> pattern = EmptyString
       \/ (snd (run_CombinedOutput w (rgCommand pattern path)) <> None
           /\ strings.Contains (fst (run_CombinedOutput w (rgCommand pattern path)))
                "No such file or directory" = true))
  /\ (completionError (fst (runCmd (executeRipgrep pattern path) w)) <> None ->
      completionResults (fst (runCmd (executeRipgrep pattern path) w)) = [])
  /\ (snd (runCmd (executeRipgrep pattern path) w) = [] <->
      pattern = EmptyString)
  /\ (pattern <> EmptyString ->
      snd (runCmd (executeRipgrep pattern path) w) = [rgCommand pattern path]).
Proof.
  unfold executeRipgrep.
  destruct (String.eqb_spec pattern "") as [->|Hp].
  - run_io. cbn [completionError completionResults].
    repeat split; auto; try discriminate. congruence.
  - run_io.
    destruct (run_CombinedOutput w (rgCommand pattern path)) as [o [e|]];
      cbn [fst snd].
    + destruct (strings.Contains o "No such file or directory") eqn:C.
      * cbn [completionError completionResults fst snd].
        repeat split; auto; try discriminate; try congruence.
        intros _. right. split; [discriminate | reflexivity].
      * destruct (strings.TrimSpace o =? "")%string;
          cbn [completionError completionResults fst snd];
          repeat split; auto; try discriminate; try congruence;
          intros [?|[_ ?]]; congruence.
    + cbn [completionError completionResults fst snd].
      repeat split; auto; try discriminate; try congruence.
      intros [?|[? _]]; congruence.
Qed.

(** X21: a line number that is the decimal numeral of a positive integer
    is never rejected: [loadFile] runs the pager on the given path with
    that text as the line to mark. *)
Theorem loadFile_accepts_positive_numerals
        (w : World) (filepath lineNum : string) :
  positiveNumeral lineNum = true ->
  exists log,
    snd (runCmd (loadFile filepath lineNum) w)
    = batCommand lineNum filepath :: log.
Proof.
  intros H. apply positiveNumeral_parses in H. unfold parsesPositive in H.
  destruct (fmt.Sscanf_d lineNum) as [n|] eqn:E; [|discriminate].
  now apply (loadFile_scannable_runs_pager w filepath lineNum n).
Qed.

Lemma loadFile_accepts_positive_numerals_witness :
  exists log,
    snd (runCmd (loadFile "main.go" "42") pagerWorld)
    = batCommand "42" "main.go" :: log.
Proof.
  apply (loadFile_accepts_positive_numerals pagerWorld "main.go" "42").
  reflexivity.
Defined.

Lemma wrap64_id z : - 2^63 <= z < 2^63 -> wrap64 z = z.
Proof.
  intros H. unfold wrap64. rewrite Z.mod_small; lia.
Qed.

Lemma renderLines_rows w n lines i acc log :
  0 <= i -> i + Z.of_nat (List.length lines) < 2^63 ->
  renderLines lines i n acc w log
  = (acc ++ String.concat "" (rawRows w n i lines), log).
Proof.
  revert i acc. induction lines as [|x xs IH]; intros i acc Hi Hl.
  - simpl. unfold ret. now rewrite append_nil_r.
  - cbn [renderLines rawRows]. cbn [List.length] in Hl.
    assert (E : int_add i 1 = i + 1) by (apply wrap64_id; lia).
    rewrite E.
    assert (C : forall r, String.concat "" (r :: rawRows w n (i + 1) xs)
                          = r ++ String.concat "" (rawRows w n (i + 1) xs)).
    { intros r. simpl. destruct (rawRows w n (i + 1) xs);
        [now rewrite append_nil_r | reflexivity]. }
    rewrite C.
    destruct (i + 1 =? n); run_io; rewrite IH by lia; f_equal;
      unfold markedRow, plainRow; now rewrite !append_assoc.
Qed.

Lemma rawRows_plain w n lines i :
  n <= i \/ i + Z.of_nat (List.length lines) < n ->
  rawRows w n i lines = plainRows i lines.
Proof.
  revert i. induction lines as [|x xs IH]; intros i H; [reflexivity|].
  cbn [rawRows plainRows]. cbn [List.length] in H.
  destruct (Z.eqb_spec (i + 1) n); [lia|]. f_equal. apply IH. lia.
Qed.

Lemma rawRows_marked w n lines i :
  i < n <= i + Z.of_nat (List.length lines) ->
  rawRows w n i lines
  = (plainRows i (firstn (Z.to_nat (n - 1 - i)) lines)
     ++ [markedRow w (n - 1) (nth (Z.to_nat (n - 1 - i)) lines "")]
     ++ plainRows n (skipn (S (Z.to_nat (n - 1 - i))) lines))%list.
Proof.
  revert i. induction lines as [|x xs IH]; intros i H.
  - simpl in H. lia.
  - cbn [rawRows]. cbn [List.length] in H.
    destruct (Z.eqb_spec (i + 1) n) as [E|E].
    + replace (n - 1 - i) with 0 by lia. cbn [Z.to_nat firstn nth skipn plainRows app].
      replace (n - 1) with i by lia. f_equal.
      rewrite <- E. apply rawRows_plain. lia.
    + rewrite IH by lia.
      replace (Z.to_nat (n - 1 - i)) with (S (Z.to_nat (n - 1 - (i + 1))))
        by lia.
      reflexivity.
Qed.

(** X16: without the pager (its look-up fails) [loadFile] reads the file
    itself, once, and completes with one row per line of the file, in
    order, each a right-aligned line number and the line; a target line
    outside the file marks no row, and a target line [n] inside it marks
    row [n] and no other, rendering that line alone in the highlight
    style. *)
Theorem loadFile_without_pager_numbers_the_lines
        (w : World) (filepath lineNum : string) (n : Z)
        (out : string) (e : error) (text : string) :
  fmt.Sscanf_d lineNum = Some n ->
  run_CombinedOutput w (batCommand lineNum filepath) = (out, Some e) ->
  strings.Contains e "executable file not found" = true ->
  os_Open w filepath = None ->
  io_ReadAll w filepath = (text, None) ->
  Z.of_nat (List.length (strings.Split text newline)) < 2^63 ->
  runCmd (loadFile filepath lineNum) w
  = (fileLoadedMsg
       (String.concat "" (rawRows w n 0 (strings.Split text newline))) None,
     [batCommand lineNum filepath])
  /\ (n < 1 \/ Z.of_nat (List.length (strings.Split text newline)) < n ->
      rawRows w n 0 (strings.Split text newline)
      = plainRows 0 (strings.Split text newline))
  /\ (1 <= n <= Z.of_nat (List.length (strings.Split text newline)) ->
      rawRows w n 0 (strings.Split text newline)
      = (plainRows 0 (firstn (Z.to_nat (n - 1)) (strings.Split text newline))
         ++ [markedRow w (n - 1)
               (nth (Z.to_nat (n - 1)) (strings.Split text newline) "")]
         ++ plainRows n (skipn (S (Z.to_nat (n - 1)))
                           (strings.Split text newline)))%list).
Proof.
  intros Hs Hr Hc Ho Ha Hl. split; [|split].
  - unfold loadFile. rewrite Hs. run_io. rewrite Hr. cbn [errContains].
    rewrite Hc. run_io. rewrite Ho. run_io. rewrite Ha. run_io.
    rewrite renderLines_rows by lia. reflexivity.
  - intros H. apply rawRows_plain. lia.
  - intros H. rewrite rawRows_marked by lia.
    now replace (n - 1 - 0) with (n - 1) by lia.
Qed.

Lemma loadFile_without_pager_numbers_the_lines_witness :
  runCmd (loadFile "main.go" "2") noPagerWorld
  = (fileLoadedMsg
       (String.concat ""
          (rawRows noPagerWorld 2 0
             (strings.Split ("package main" ++ nl ++ "func main() {}") newline)))
       None,
     [batCommand "2" "main.go"])
  /\ (2 < 1 \/ Z.of_nat (List.length (strings.Split
                                       ("package main" ++ nl ++ "func main() {}")
                                       newline)) < 2 ->
      rawRows noPagerWorld 2 0
        (strings.Split ("package main" ++ nl ++ "func main() {}") newline)
      = plainRows 0
          (strings.Split ("package main" ++ nl ++ "func main() {}") newline))
  /\ (1 <= 2 <= Z.of_nat (List.length (strings.Split
                                         ("package main" ++ nl ++ "func main() {}")
                                         newline)) ->
      rawRows noPagerWorld 2 0
        (strings.Split ("package main" ++ nl ++ "func main() {}") newline)
      = (plainRows 0 (firstn (Z.to_nat (2 - 1))
                        (strings.Split ("package main" ++ nl ++ "func main() {}")
                           newline))
         ++ [markedRow noPagerWorld (2 - 1)
               (nth (Z.to_nat (2 - 1))
                  (strings.Split ("package main" ++ nl ++ "func main() {}")
                     newline) "")]
         ++ plainRows 2 (skipn (S (Z.to_nat (2 - 1)))
                           (strings.Split
                              ("package main" ++ nl ++ "func main() {}")
                              newline)))%list).
Proof.
  apply (loadFile_without_pager_numbers_the_lines
           noPagerWorld "main.go" "2" 2 EmptyString
           "exec: bat: executable file not found in $PATH"
           ("package main" ++ nl ++ "func main() {}")).
  - reflexivity.
  - reflexivity.
  - reflexivity.
  - reflexivity.
  - reflexivity.
  - vm_compute. reflexivity.
Defined.

Example fallback_rendering :
  fst (runCmd (loadFile "main.go" "2") noPagerWorld)
  = fileLoadedMsg ("     1 | package main" ++ nl
                   ++ "→    2 | <func main() {}>" ++ nl) None.
Proof. reflexivity. Qed.

(** X17: when the pager is missing and the file cannot be opened or read,
    [loadFile] completes with that error, having tried the pager once and
    nothing else. *)
Theorem loadFile_without_pager_reports_file_errors
        (w : World) (filepath lineNum : string) (n : Z)
        (out : string) (e ferr : error) :
  fmt.Sscanf_d lineNum = Some n ->
  run_CombinedOutput w (batCommand lineNum filepath) = (out, Some e) ->
  strings.Contains e "executable file not found" = true ->
  os_Open w filepath = Some ferr
  \/ (os_Open w filepath = None
      /\ snd (io_ReadAll w filepath) = Some ferr) ->
  runCmd (loadFile filepath lineNum) w
  = (fileLoadedMsg "" (Some ferr), [batCommand lineNum filepath]).
Proof.
  intros Hs Hr Hc Hf.
  unfold loadFile. rewrite Hs. run_io. rewrite Hr. cbn [errContains].
  rewrite Hc. run_io.
  destruct Hf as [Ho | [Ho Ha]]; rewrite Ho; run_io; [reflexivity|].
  destruct (io_ReadAll w filepath) as [c err]. cbn [snd] in Ha. subst err.
  reflexivity.
Qed.

Lemma loadFile_without_pager_reports_file_errors_witness :
  runCmd (loadFile "gone.go" "1")
    {| run_CombinedOutput := run_CombinedOutput noPagerWorld;
       os_Open := fun _ => Some "open gone.go: no such file or directory";
       io_ReadAll := io_ReadAll noPagerWorld;
       highlightStyle_Render := highlightStyle_Render noPagerWorld |}
  = (fileLoadedMsg "" (Some "open gone.go: no such file or directory"),
     [batCommand "1" "gone.go"]).
Proof.
  apply (loadFile_without_pager_reports_file_errors
           _ "gone.go" "1" 1 EmptyString
           "exec: bat: executable file not found in $PATH"
           "open gone.go: no such file or directory").
  - reflexivity.
  - reflexivity.
  - reflexivity.
  - left. reflexivity.
Defined.

(** ** Keys, help and window size *)

Lemma Matches_iff k (b : key.Binding) :
  key.Matches k b = true <-> In k (key.keys b) /\ key.Enabled b = true.
Proof.
  unfold key.Matches. rewrite existsb_exists. split.
  - intros (v & Hin & H). apply andb_true_iff in H. destruct H as [E En].
    apply String.eqb_eq in E. subst v. now split.
  - intros [Hin En]. exists k. split; [assumption|].
    now rewrite String.eqb_refl, En.
Qed.

(** X8: no key is bound twice: whatever key is pressed, at most one of the
    nine bindings of the key map matches it, so the order in which [Update]
    tries them decides nothing. *)
Theorem at_most_one_binding_matches (k : string) :
  (List.length (filter (key.Matches k) (bindings keys)) <= 1)%nat.
Proof.
  unfold bindings, keys. cbn [Quit Help Tab Search Search2 Back Enter
                              InputNext InputPrev filter].
  unfold key.Matches, key.NewBinding, key.Enabled.
  cbn [key.keys key.disabled existsb List.length negb Nat.eqb andb orb].
  rewrite ?andb_true_r, ?orb_false_r.
  destruct (String.eqb_spec k "ctrl+c") as [->|]; [vm_compute; lia|].
  destruct (String.eqb_spec k "q") as [->|]; [vm_compute; lia|].
  destruct (String.eqb_spec k "?") as [->|]; [vm_compute; lia|].
  destruct (String.eqb_spec k "ctrl+t") as [->|]; [vm_compute; lia|].
  destruct (String.eqb_spec k "ctrl+f") as [->|]; [vm_compute; lia|].
  destruct (String.eqb_spec k "ctrl+s") as [->|]; [vm_compute; lia|].
  destruct (String.eqb_spec k "esc") as [->|]; [vm_compute; lia|].
  destruct (String.eqb_spec k "enter") as [->|]; [vm_compute; lia|].
  destruct (String.eqb_spec k "tab") as [->|]; [vm_compute; lia|].
  destruct (String.eqb_spec k "shift+tab") as [->|]; [vm_compute; lia|].
  cbn. lia.
Qed.

Section HelpCoverage.
Context {B : Bubbles}.

(** X23: the help shows every key the program acts on itself: a key that
    matches none of the bindings listed by [FullHelp] and [ShortHelp] is
    handled by no case of [Update]; it is handed to the widget of the
    active tab, and the model changes in that widget only. *)
Theorem keys_outside_help_go_to_widget (m : model) (k : string) :
  existsb (key.Matches k) (helpBindings (keymap m)) = false ->
  Update m (KeyMsg k) = passToWidget m (KeyMsg k).
Proof.
  unfold helpBindings, FullHelp, ShortHelp.
  cbn [List.concat app existsb]. intros H.
  repeat match type of H with
         | (_ || _) = false =>
           apply orb_false_elim in H; destruct H as [? H]
         end.
  unfold Update, routeToTab, passToWidget.
  repeat match goal with
         | E : key.Matches k _ = false |- _ => rewrite E; clear E
         end.
  cbn [orb app].
  destruct (activeTab m =? searchTab); [|reflexivity].
  reflexivity.
Qed.

End HelpCoverage.

Lemma keys_outside_help_go_to_widget_witness :
  existsb (key.Matches "x") (helpBindings (keymap plainStart)) = false
  /\ Update plainStart (KeyMsg "x") = passToWidget plainStart (KeyMsg "x").
Proof.
  split; [reflexivity|].
  apply (keys_outside_help_go_to_widget plainStart "x"). reflexivity.
Defined.

Section Resize.
Context {B : Bubbles}.

(** X20: a window size within the range of [int] arithmetic is recorded as
    it is and makes the model ready; the list and the file viewer get the
    window height less 11 rows of chrome, or less 15 while the full help is
    shown (also when that is negative), the viewer is scrolled to its top,
    the text inputs get the width less 30; the active tab and the help
    toggle stay, and no command is issued. *)
Theorem window_size_reserves_chrome_rows (m : model) (W H : Z) :
  - 2^63 + 30 <= W < 2^63 ->
  - 2^63 + 15 <= H < 2^63 ->
  width (fst (Update m (WindowSizeMsg W H))) = W
  /\ height (fst (Update m (WindowSizeMsg W H))) = H
  /\ ready (fst (Update m (WindowSizeMsg W H))) = true
  /\ searchResults (fst (Update m (WindowSizeMsg W H)))
     = list_SetSize (searchResults m) (W - 4)
         (H - 11 - (if ShowAll (help m) then 4 else 0))
  /\ fileViewer (fst (Update m (WindowSizeMsg W H)))
     = viewport_GotoTop
         (viewport_SetHeight
            (viewport_SetWidth (fileViewer m) (W - 8))
            (H - 11 - (if ShowAll (help m) then 4 else 0)))
  /\ searchInput (fst (Update m (WindowSizeMsg W H)))
     = textinput_SetWidth (searchInput m) (W - 30)
  /\ directoryInput (fst (Update m (WindowSizeMsg W H)))
     = textinput_SetWidth (directoryInput m) (W - 30)
  /\ help (fst (Update m (WindowSizeMsg W H)))
     = {| ShowAll := ShowAll (help m); help_Width := W |}
  /\ activeTab (fst (Update m (WindowSizeMsg W H))) = activeTab m
  /\ snd (Update m (WindowSizeMsg W H)) = cmd_nil.
Proof.
  intros HW HH. unfold Update. fields. unfold int_sub.
  rewrite (wrap64_id (H - 6)) by lia.
  rewrite (wrap64_id (H - 6 - 2)) by lia.
  rewrite (wrap64_id (H - 6 - 2 - 1)) by lia.
  rewrite (wrap64_id (H - 6 - 2 - 1 - 2)) by lia.
  rewrite (wrap64_id (W - 30)), (wrap64_id (W - 4)), (wrap64_id (W - 8)) by lia.
  replace (H - 6 - 2 - 1 - 2) with (H - 11) by lia.
  destruct (ShowAll (help m)).
  - rewrite (wrap64_id (H - 11 - 4)) by lia. now repeat split.
  - rewrite Z.sub_0_r. now repeat split.
Qed.

End Resize.

Lemma window_size_reserves_chrome_rows_witness :
  width (fst (Update plainStart (WindowSizeMsg 80 24))) = 80
  /\ height (fst (Update plainStart (WindowSizeMsg 80 24))) = 24
  /\ ready (fst (Update plainStart (WindowSizeMsg 80 24))) = true
  /\ searchResults (fst (Update plainStart (WindowSizeMsg 80 24)))
     = list_SetSize (searchResults plainStart) (80 - 4)
         (24 - 11 - (if ShowAll (help plainStart) then 4 else 0))
  /\ fileViewer (fst (Update plainStart (WindowSizeMsg 80 24)))
     = viewport_GotoTop
         (viewport_SetHeight
            (viewport_SetWidth (fileViewer plainStart) (80 - 8))
            (24 - 11 - (if ShowAll (help plainStart) then 4 else 0)))
  /\ searchInput (fst (Update plainStart (WindowSizeMsg 80 24)))
     = textinput_SetWidth (searchInput plainStart) (80 - 30)
  /\ directoryInput (fst (Update plainStart (WindowSizeMsg 80 24)))
     = textinput_SetWidth (directoryInput plainStart) (80 - 30)
  /\ help (fst (Update plainStart (WindowSizeMsg 80 24)))
     = {| ShowAll := ShowAll (help plainStart); help_Width := 80 |}
  /\ activeTab (fst (Update plainStart (WindowSizeMsg 80 24)))
     = activeTab plainStart
  /\ snd (Update plainStart (WindowSizeMsg 80 24)) = cmd_nil.
Proof.
  apply (window_size_reserves_chrome_rows (B := plainBubbles) plainStart 80 24);
    lia.
Defined.
